(** * VESWatch API: the rate store, the rate service and the scheduler

    A shallow embedding of [internal/rates] (the [RateStore] and the
    [Service] that feeds it), of [internal/scheduler] (the two jobs and the
    time arithmetic behind the daily one) and of [internal/scraper] (the
    BCV scraper and the Binance fetcher), together with the properties the
    specification states about them and further properties of the code.

    Conventions of the embedding:
    - a Go [float64] is a primitive binary64 float ([PrimFloat.float]),
      so [+], [-], [*] and [/] round exactly as the compiled program does;
    - a Go [error] is an [option]: [None] is [nil];
    - code that reads the clock, writes the log or calls a scraper runs in
      a small state monad over a [World];
    - [sync.RWMutex] operations are not represented: every function below
      is one uninterrupted critical section;
    - what the network, Colly, [encoding/json] and [strconv] do is an input
      of the scrapers: the calls of a visit, the answer to a request, and
      the two library functions as parameters. *)

From Stdlib Require Import ZArith List String Ascii Bool Lia Floats QArith.
From Stdlib Require Import DecimalString Permutation.
From Equations Require Import Equations.
Import ListNotations.

Set Implicit Arguments.
#[global] Set Warnings "-inexact-float".
Open Scope Z_scope.

(** ** The Go runtime: errors and numeric conversions *)

Module Go.

(** An [error] value, identified with its message. *)
Definition error : Type := string.

Definition int64_min : Z := - 2 ^ 63.
Definition int64_max : Z := 2 ^ 63 - 1.

(** The integer part of the finite binary64 number [(-1)^s * m * 2^e]:
    the fraction is discarded, so the value moves towards zero. *)
Definition trunc_finite (s : bool) (m : positive) (e : Z) : Z :=
  let a := if 0 <=? e then Z.shiftl (Zpos m) e else Z.shiftr (Zpos m) (- e) in
  if s then - a else a.

(** The integer part of a float, when it has one (not for NaN and the
    infinities). *)
Definition float64_trunc (f : float) : option Z :=
  match Prim2SF f with
  | S754_zero _ => Some 0
  | S754_finite s m e => Some (trunc_finite s m e)
  | S754_infinity _ | S754_nan => None
  end.

(** Whether the integer part of [f] exists and is an [int] (64 bits). *)
Definition fits_int (f : float) : bool :=
  match float64_trunc f with
  | Some z => (int64_min <=? z) && (z <=? int64_max)
  | None => false
  end.

(** The language leaves the result of converting a float that an [int]
    cannot hold (NaN, an infinity, a value beyond 64 bits) to the
    implementation; [Arch] supplies it. *)
Class Arch : Type := { int_of_unrepresentable : float -> Z }.

(** [GOARCH=amd64], the target of the Dockerfile: CVTTSD2SQ returns the
    "integer indefinite" value, the smallest int64. *)
#[global] Instance amd64 : Arch := {| int_of_unrepresentable := fun _ => int64_min |}.

(** The conversion [int(f)] of a [float64]. *)
Definition int_of_float64 `{Arch} (f : float) : Z :=
  match float64_trunc f with
  | Some z =>
      if (int64_min <=? z) && (z <=? int64_max) then z
      else int_of_unrepresentable f
  | None => int_of_unrepresentable f
  end.

(** The conversion [float64(n)] of an [int]: the nearest binary64 number,
    ties to even. *)
Definition float64_of_int (n : Z) : float :=
  SF2Prim (binary_normalize prec emax n 0 false).

End Go.

(** ** Package [time], as far as the program uses it

    An instant is a count of seconds and nanoseconds since the Unix epoch,
    an optional monotonic clock reading and a location. Dates are those of
    the proleptic Gregorian calendar. Seconds are unbounded integers: the
    instants of the program come from the system clock and from a few days
    around it, far from the ends of what a [time.Time] can hold. *)

Module time.

(** A location is a name and an offset east of UTC, in seconds. Only
    fixed offsets are represented: the program builds its one zone with
    [time.FixedZone], and of [time.Local] it observes nothing but the
    weekday of a fresh clock reading, for which the offset in force at
    that reading is enough (see [LocalZone] and [Sys.time_Now]). *)
Record Location : Type := { zoneName : string; offset : Z }.

Definition UTC : Location := {| zoneName := "UTC"; offset := 0 |}.

Definition FixedZone (name : string) (offset : Z) : Location :=
  {| zoneName := name; offset := offset |}.

(** The zone of the process ([TZ], the zone database): the offset east of
    UTC in force at each instant (Unix seconds). *)
Class LocalZone : Type := { localOffset : Z -> Z }.

Record Time : Type := {
  sec : Z;            (* seconds since 1970-01-01T00:00:00Z *)
  nsec : Z;           (* nanoseconds within the second, 0 <= nsec < 10^9 *)
  mono : option Z;    (* monotonic clock reading, when present *)
  loc : Location
}.

(** The zero [Time]: January 1, year 1, 00:00:00 UTC. *)
Definition zeroTime : Time :=
  {| sec := -62135596800; nsec := 0; mono := None; loc := UTC |}.

Definition valid (t : Time) : Prop := 0 <= nsec t < 10 ^ 9.

(** Durations are nanosecond counts. *)
Definition Duration : Type := Z.
Definition Nanosecond : Duration := 1.
Definition Second : Duration := 1000000000.
Definition Minute : Duration := 60 * Second.
Definition Hour : Duration := 60 * Minute.
Definition minDuration : Duration := - 2 ^ 63.
Definition maxDuration : Duration := 2 ^ 63 - 1.

Inductive Weekday : Type :=
  Sunday | Monday | Tuesday | Wednesday | Thursday | Friday | Saturday.

Definition Weekday_eqb (a b : Weekday) : bool :=
  match a, b with
  | Sunday, Sunday | Monday, Monday | Tuesday, Tuesday
  | Wednesday, Wednesday | Thursday, Thursday | Friday, Friday
  | Saturday, Saturday => true
  | _, _ => false
  end.

Definition Weekday_of_Z (n : Z) : Weekday :=
  match n mod 7 with
  | 0 => Sunday | 1 => Monday | 2 => Tuesday | 3 => Wednesday
  | 4 => Thursday | 5 => Friday | _ => Saturday
  end.

(** *** The calendar *)

(** Days from 1970-01-01 to the civil date [y]-[m]-[d] ([m] in 1..12). *)
Definition days_from_civil (y m d : Z) : Z :=
  let y' := if m <=? 2 then y - 1 else y in
  let era := y' / 400 in
  let yoe := y' mod 400 in
  let mp := (m + 9) mod 12 in
  let doy := (153 * mp + 2) / 5 + d - 1 in
  let doe := yoe * 365 + yoe / 4 - yoe / 100 + doy in
  era * 146097 + doe - 719468.

(** The civil date (year, month, day) of the day [z] days after
    1970-01-01. *)
Definition civil_from_days (z : Z) : Z * Z * Z :=
  let era := (z + 719468) / 146097 in
  let doe := (z + 719468) mod 146097 in
  let yoe := (doe - doe / 1460 + doe / 36524 - doe / 146096) / 365 in
  let doy := doe - (365 * yoe + yoe / 4 - yoe / 100) in
  let mp := (5 * doy + 2) / 153 in
  let d := doy - (153 * mp + 2) / 5 + 1 in
  let m := if mp <? 10 then mp + 3 else mp - 9 in
  (if m <=? 2 then yoe + era * 400 + 1 else yoe + era * 400, m, d).

(** Seconds on the wall clock of [t]'s location since 1970-01-01 00:00
    there. *)
Definition localSec (t : Time) : Z := sec t + offset (loc t).

Definition Time_Year (t : Time) : Z := fst (fst (civil_from_days (localSec t / 86400))).
Definition Time_Month (t : Time) : Z := snd (fst (civil_from_days (localSec t / 86400))).
Definition Time_Day (t : Time) : Z := snd (civil_from_days (localSec t / 86400)).
Definition Time_Hour (t : Time) : Z := (localSec t mod 86400) / 3600.
Definition Time_Minute (t : Time) : Z := (localSec t mod 3600) / 60.

(** 1970-01-01 was a Thursday. *)
Definition Time_Weekday (t : Time) : Weekday := Weekday_of_Z (localSec t / 86400 + 4).

(** [t.In(loc)]: the same instant, shown in [loc]; the monotonic reading
    is dropped. *)
Definition Time_In (t : Time) (l : Location) : Time :=
  {| sec := sec t; nsec := nsec t; mono := None; loc := l |}.

(** [t.After(u)]: by the monotonic readings when both have one, by the
    wall clock otherwise. *)
Definition Time_After (t u : Time) : bool :=
  match mono t, mono u with
  | Some a, Some b => b <? a
  | _, _ => (sec u <? sec t) || ((sec t =? sec u) && (nsec u <? nsec t))
  end.

(** [t.Add(d)]. *)
Definition Time_Add (t : Time) (d : Duration) : Time :=
  let dsec := Z.quot d (10 ^ 9) in
  let n := nsec t + Z.rem d (10 ^ 9) in
  let '(dsec, n) :=
    if 10 ^ 9 <=? n then (dsec + 1, n - 10 ^ 9)
    else if n <? 0 then (dsec - 1, n + 10 ^ 9)
    else (dsec, n) in
  {| sec := sec t + dsec; nsec := n;
     mono := match mono t with
             | Some a =>
                 if (minDuration <=? a + d) && (a + d <=? maxDuration)
                 then Some (a + d) else None
             | None => None
             end;
     loc := loc t |}.

(** [t.Sub(u)], saturating at the ends of [Duration]. *)
Definition Time_Sub (t u : Time) : Duration :=
  let d := match mono t, mono u with
           | Some a, Some b => a - b
           | _, _ => (sec t - sec u) * 10 ^ 9 + (nsec t - nsec u)
           end in
  Z.max minDuration (Z.min maxDuration d).

(** [time.Date]: months outside 1..12 carry into the year; the other
    fields add up linearly, so their overflow needs no separate step. *)
Definition Date (year month day hour min sec' nsec' : Z) (l : Location) : Time :=
  let y := year + (month - 1) / 12 in
  let m := (month - 1) mod 12 + 1 in
  let unix := days_from_civil y m day * 86400
              + hour * 3600 + min * 60 + sec' + nsec' / 10 ^ 9 in
  {| sec := unix - offset l; nsec := nsec' mod 10 ^ 9; mono := None; loc := l |}.

End time.

(** ** The world outside the program

    The clock, the log and the calls that leave the process. A
    computation is a function from the world before to a result and the
    world after. *)

Inductive Source : Type := SrcBCV | SrcBinance.

Inductive LogArg : Type :=
| ArgError (e : Go.error)
| ArgFloat (f : float)
| ArgTime (t : time.Time)
| ArgDuration (d : time.Duration).

Inductive Event : Type :=
| EvFetch (src : Source)                        (* a scraper's [Fetch] is entered *)
| EvLog (format : string) (args : list LogArg). (* a line handed to package [log] *)

(** One reading of the system clock: wall seconds, nanoseconds, and the
    monotonic clock. *)
Record Reading : Type := { rd_sec : Z; rd_nsec : Z; rd_mono : Z }.

Record World : Type := {
  clock : nat -> Reading;   (* the n-th reading the clock will give *)
  ticks : nat;              (* readings taken so far *)
  trace : list Event        (* what happened so far, oldest first *)
}.

Module Sys.

Definition M (A : Type) : Type := World -> A * World.

Definition ret {A} (a : A) : M A := fun w => (a, w).

Definition bind {A B} (c : M A) (k : A -> M B) : M B :=
  fun w => let (a, w') := c w in k a w'.

Definition emit (e : Event) : M unit :=
  fun w => (tt, {| clock := clock w; ticks := ticks w; trace := trace w ++ [e] |}).

(** [time.Now()]: the next reading of the clock, in the local zone. *)
Definition time_Now `{time.LocalZone} : M time.Time :=
  fun w =>
    let r := clock w (ticks w) in
    ({| time.sec := rd_sec r; time.nsec := rd_nsec r;
        time.mono := Some (rd_mono r);
        time.loc := {| time.zoneName := "Local";
                       time.offset := time.localOffset (rd_sec r) |} |},
     {| clock := clock w; ticks := S (ticks w); trace := trace w |}).

(** [time.Until(t)], that is [t.Sub(time.Now())]. *)
Definition time_Until `{time.LocalZone} (t : time.Time) : M time.Duration :=
  fun w => let (n, w') := time_Now w in (time.Time_Sub t n, w').

Definition log_Printf (format : string) (args : list LogArg) : M unit :=
  emit (EvLog format args).

Definition log_Println (line : string) : M unit := emit (EvLog line []).

End Sys.

Import Sys.

Declare Scope sys_scope.
Delimit Scope sys_scope with sys.
Notation "x <- c ;; k" := (bind c (fun x => k))
  (at level 61, c at next level, right associativity) : sys_scope.
Notation "' pat <- c ;; k" := (bind c (fun x => match x with pat => k end))
  (at level 61, pat pattern, c at next level, right associativity) : sys_scope.
Notation "c ;; k" := (bind c (fun _ => k))
  (at level 61, right associativity) : sys_scope.

(** The scraper calls recorded in a trace, in order. *)
Fixpoint fetches (tr : list Event) : list Source :=
  match tr with
  | [] => []
  | EvFetch src :: tr' => src :: fetches tr'
  | EvLog _ _ :: tr' => fetches tr'
  end.

(** ** Package [rates] *)

Module rates.

(** [Scraper]: anything with a [Fetch() (float64, error)]. A scraper may
    keep state of its own between calls; [Fetch] returns it updated. *)
Class Scraper (T : Type) : Type := { Fetch : T -> (float * option Go.error) * T }.

Record RateData : Type := {
  BCV : float;
  Binance : float;
  Breach : float;
  UpdatedAt : time.Time
}.

Record RateStore : Type := {
  bcv : float;
  binance : float;
  bcvTime : time.Time;
  binTime : time.Time
}.

Definition NewRateStore : RateStore :=
  {| bcv := 0; binance := 0; bcvTime := time.zeroTime; binTime := time.zeroTime |}.

Section Store.
Context `{time.LocalZone} `{Go.Arch}.

Definition SetBCV (s : RateStore) (rate : float) : M RateStore :=
  (now <- time_Now ;;
   ret {| bcv := rate; binance := binance s; bcvTime := now; binTime := binTime s |})%sys.

Definition SetBinance (s : RateStore) (rate : float) : M RateStore :=
  (now <- time_Now ;;
   ret {| bcv := bcv s; binance := rate; bcvTime := bcvTime s; binTime := now |})%sys.

Definition GetBCV (s : RateStore) : float := bcv s.

Definition GetBinance (s : RateStore) : float := binance s.

(** [GetRateData], with the division of the breach formula as a
    parameter [quo], so that a statement can say that a result does not
    depend on what that division does. *)
Definition GetRateData_with (quo : float -> float -> float) (s : RateStore) : RateData :=
  let breach : float :=
    if (0 <? bcv s)%float
    then (quo (binance s - bcv s) (bcv s) * 100)%float
    else 0%float in
  let updatedAt :=
    if time.Time_After (binTime s) (bcvTime s) then binTime s else bcvTime s in
  let breach := (Go.float64_of_int (Go.int_of_float64 (breach * 100)) / 100)%float in
  {| BCV := bcv s; Binance := binance s; Breach := breach; UpdatedAt := updatedAt |}.

Definition GetRateData (s : RateStore) : RateData :=
  GetRateData_with PrimFloat.div s.

End Store.

Record Service (B F : Type) : Type := {
  store : RateStore;
  bcvScraper : B;
  binanceFetcher : F
}.
Arguments store {B F} _.
Arguments bcvScraper {B F} _.
Arguments binanceFetcher {B F} _.

Section Service.
Context `{time.LocalZone} `{Go.Arch}.
Context {B F : Type} `{Scraper B} `{Scraper F}.

Definition NewService (bcvScraper : B) (binanceFetcher : F) : Service B F :=
  {| store := NewRateStore; bcvScraper := bcvScraper; binanceFetcher := binanceFetcher |}.

(** The call of a scraper's [Fetch], recorded in the trace. *)
Definition call_Fetch {T} `{Scraper T} (src : Source) (sc : T)
  : M (float * option Go.error * T) :=
  (emit (EvFetch src) ;; ret (Fetch sc))%sys.

Definition FetchBCV (s : Service B F) : M (option Go.error * Service B F) :=
  ('(rate, err, sc) <- call_Fetch SrcBCV (bcvScraper s) ;;
   match err with
   | Some e =>
       log_Printf "BCV fetch error (keeping previous value): %v" [ArgError e] ;;
       ret (Some e,
            {| store := store s; bcvScraper := sc; binanceFetcher := binanceFetcher s |})
   | None =>
       st <- SetBCV (store s) rate ;;
       log_Printf "BCV rate updated: %.2f" [ArgFloat rate] ;;
       ret (None,
            {| store := st; bcvScraper := sc; binanceFetcher := binanceFetcher s |})
   end)%sys.

Definition FetchBinance (s : Service B F) : M (option Go.error * Service B F) :=
  ('(rate, err, sc) <- call_Fetch SrcBinance (binanceFetcher s) ;;
   match err with
   | Some e =>
       log_Printf "Binance fetch error (keeping previous value): %v" [ArgError e] ;;
       ret (Some e,
            {| store := store s; bcvScraper := bcvScraper s; binanceFetcher := sc |})
   | None =>
       st <- SetBinance (store s) rate ;;
       log_Printf "Binance rate updated: %.2f" [ArgFloat rate] ;;
       ret (None,
            {| store := st; bcvScraper := bcvScraper s; binanceFetcher := sc |})
   end)%sys.

Definition GetRates (s : Service B F) : RateData := GetRateData (store s).

Definition Initialize (s : Service B F) : M (Service B F) :=
  (log_Println "Initializing rate data..." ;;
   (* Fetch Binance first (more reliable) *)
   '(err, s) <- FetchBinance s ;;
   match err with
   | Some e => log_Printf "Initial Binance fetch failed: %v" [ArgError e]
   | None => ret tt
   end ;;
   (* Attempt BCV fetch *)
   '(err, s) <- FetchBCV s ;;
   match err with
   | Some e => log_Printf "Initial BCV fetch failed: %v" [ArgError e]
   | None => ret tt
   end ;;
   log_Println "Rate data initialization complete" ;;
   ret s)%sys.

End Service.

End rates.

(** ** Package [scheduler] *)

Module scheduler.
Import time.

(** Venezuela timezone (UTC-4). *)
Definition VET : Location := FixedZone "VET" (-4 * 60 * 60).

Definition targetHour : Z := 11.
Definition targetMinute : Z := 30.

Definition onWeekend (t : Time) : bool :=
  Weekday_eqb (Time_Weekday t) Saturday || Weekday_eqb (Time_Weekday t) Sunday.

(** An upper bound on the turns the loop of [nextBCVRunTime] still takes
    from [t]: a turn moves [t] on by 24 hours, give or take the second a
    nanosecond carry costs, and the weekend [t] lies in ends within 48
    hours of its start. *)
Definition weekendLeft (t : Time) : nat :=
  let u := (localSec t + 5 * 86400) mod 604800 in   (* seconds since Saturday 00:00 *)
  Z.to_nat ((2 * 86400 - u + 86398) / 86399).

Lemma onWeekend_since_Saturday (t : Time) :
  onWeekend t = true -> 0 <= (localSec t + 5 * 86400) mod 604800 < 2 * 86400.
Proof.
  unfold onWeekend, Time_Weekday, Weekday_of_Z.
  set (L := localSec t). intros Hw.
  assert (Hd : (L / 86400 + 4) mod 7 = 6 \/ (L / 86400 + 4) mod 7 = 0).
  { pose proof (Z.mod_pos_bound (L / 86400 + 4) 7 ltac:(lia)) as Hb.
    destruct ((L / 86400 + 4) mod 7) as [|p|p] eqn:E; [now right | | lia].
    left. do 3 (destruct p as [p|p|]; try (simpl in Hw; discriminate); try lia). }
  clear Hw. Z.to_euclidean_division_equations. lia.
Qed.

Lemma Time_Add_day_localSec (t : Time) :
  86399 <= localSec (Time_Add t (24 * Hour)) - localSec t <= 86401.
Proof.
  unfold Time_Add, localSec.
  replace (Z.quot (24 * Hour) (10 ^ 9)) with 86400 by reflexivity.
  replace (Z.rem (24 * Hour) (10 ^ 9)) with 0 by reflexivity.
  destruct (10 ^ 9 <=? nsec t + 0); [simpl; lia|].
  destruct (nsec t + 0 <? 0); simpl; lia.
Qed.

(** A turn of the loop brings the end of the weekend nearer. *)
Lemma weekendLeft_decreases (next : Time) :
  onWeekend next = true ->
  (weekendLeft (Time_Add next (24 * Hour)%Z) < weekendLeft next)%nat.
Proof.
  intros Hw.
  pose proof (onWeekend_since_Saturday _ Hw) as Hu.
  pose proof (Time_Add_day_localSec next) as Hd.
  unfold weekendLeft.
  set (L := localSec next) in *. set (L' := localSec (Time_Add next (24 * Hour))) in *.
  assert (HL' : (L' + 5 * 86400) mod 604800
                = (L + 5 * 86400) mod 604800 + (L' - L)).
  { symmetry. apply Z.mod_unique_pos with (q := (L + 5 * 86400) / 604800); [lia|].
    pose proof (Z.div_mod (L + 5 * 86400) 604800 ltac:(lia)). lia. }
  rewrite HL'. Z.to_euclidean_division_equations. lia.
Qed.

(** A value together with the fact that it is that value, for a [with]
    that has to remember what it tested. *)
Definition inspect {A : Type} (a : A) : {b : A | a = b} := exist _ a eq_refl.

(** The loop [for next.Weekday() == time.Saturday || next.Weekday() ==
    time.Sunday { next = next.Add(24 * time.Hour) }]. *)
Equations? skipWeekend (next : Time) : Time by wf (weekendLeft next) lt :=
  skipWeekend next with inspect (onWeekend next) => {
    | exist _ true _ => skipWeekend (Time_Add next (24 * Hour));
    | exist _ false _ => next }.
Proof.
  now apply weekendLeft_decreases.
Qed.

(** [nextBCVRunTime], from the reading [time.Now()] gave it. *)
Definition nextBCVRunTimeAt (reading : Time) : Time :=
  let loc := VET in
  let now := Time_In reading loc in
  let next := Date (Time_Year now) (Time_Month now) (Time_Day now)
                   targetHour targetMinute 0 0 loc in
  (* If we've passed today's target time, schedule for tomorrow *)
  let next := if Time_After now next then Time_Add next (24 * Hour) else next in
  (* Skip to Monday if next run falls on weekend *)
  skipWeekend next.

(** The case a [select] of a job takes: the stop channel, or the job's
    timer ([ticker.C] for the Binance job, [time.After(waitDuration)] for
    the BCV job). Which one is ready first is up to the environment. *)
Inductive Select : Type :=
| StopClosed    (* case <-s.stop *)
| TimerFired.   (* case <-ticker.C, case <-time.After(waitDuration) *)

Section Jobs.
Context `{LocalZone} `{Go.Arch}.
Context {B F : Type} `{rates.Scraper B} `{rates.Scraper F}.

(** One turn of the [for] loop of [binanceJob]; the result says whether
    the loop goes on. The five-minute ticker is the environment's: its
    ticks arrive as [TimerFired]. *)
Definition binanceJob_iteration (choice : Select) (svc : rates.Service B F)
  : M (bool * rates.Service B F) :=
  match choice with
  | StopClosed =>
      (log_Println "Scheduler: Binance job stopped" ;;
       ret (false, svc))%sys
  | TimerFired =>
      (log_Println "Scheduler: Refreshing Binance rate" ;;
       '(err, svc) <- rates.FetchBinance svc ;;
       match err with
       | Some e => log_Printf "Scheduler: Binance refresh failed: %v" [ArgError e]
       | None => ret tt
       end ;;
       ret (true, svc))%sys
  end.

Fixpoint binanceJob_loop (choices : list Select) (svc : rates.Service B F)
  : M (rates.Service B F) :=
  match choices with
  | [] => ret svc
  | choice :: rest =>
      ('(continue, svc) <- binanceJob_iteration choice svc ;;
       if continue : bool then binanceJob_loop rest svc else ret svc)%sys
  end.

Definition binanceJob (choices : list Select) (svc : rates.Service B F)
  : M (rates.Service B F) :=
  (log_Println "Scheduler: Binance refresh job started (every 5 minutes)" ;;
   binanceJob_loop choices svc)%sys.

Definition nextBCVRunTime : M Time :=
  (reading <- time_Now ;; ret (nextBCVRunTimeAt reading))%sys.

(** [isWeekday]: the weekday of [time.Now()], in the zone of the
    process. *)
Definition isWeekday : M bool :=
  (now <- time_Now ;;
   let weekday := Time_Weekday now in
   ret (negb (Weekday_eqb weekday Saturday) && negb (Weekday_eqb weekday Sunday)))%sys.

(** The body of [case <-time.After(waitDuration)]. *)
Definition bcvDailyJob_wake (svc : rates.Service B F) : M (rates.Service B F) :=
  (weekday <- isWeekday ;;
   if weekday : bool then
     log_Println "Scheduler: Running BCV daily scrape" ;;
     '(err, svc) <- rates.FetchBCV svc ;;
     match err with
     | Some e => log_Printf "Scheduler: BCV daily scrape failed: %v" [ArgError e]
     | None => ret tt
     end ;;
     ret svc
   else
     log_Println "Scheduler: Skipping BCV scrape (weekend)" ;;
     ret svc)%sys.

(** One turn of the [for] loop of [bcvDailyJob]. [choice] is the case
    the [select] takes; the result says whether the loop goes on. The
    logged duration is the one computed, before [Round]. *)
Definition bcvDailyJob_iteration (choice : Select) (svc : rates.Service B F)
  : M (bool * rates.Service B F) :=
  (nextRun <- nextBCVRunTime ;;
   waitDuration <- time_Until nextRun ;;
   log_Printf "Scheduler: Next BCV scrape scheduled for %s (in %s)"
              [ArgTime nextRun; ArgDuration waitDuration] ;;
   match choice with
   | StopClosed =>
       log_Println "Scheduler: BCV job stopped" ;;
       ret (false, svc)
   | TimerFired =>
       svc <- bcvDailyJob_wake svc ;;
       ret (true, svc)
   end)%sys.

(** The loop, driven by the cases its successive [select]s take; it
    ends with the first [StopClosed], or when the list does. *)
Fixpoint bcvDailyJob_loop (choices : list Select) (svc : rates.Service B F)
  : M (rates.Service B F) :=
  match choices with
  | [] => ret svc
  | choice :: rest =>
      ('(continue, svc) <- bcvDailyJob_iteration choice svc ;;
       if continue : bool then bcvDailyJob_loop rest svc else ret svc)%sys
  end.

Definition bcvDailyJob (choices : list Select) (svc : rates.Service B F)
  : M (rates.Service B F) :=
  (log_Println "Scheduler: BCV daily job started" ;;
   bcvDailyJob_loop choices svc)%sys.

End Jobs.

End scheduler.

(** ** Package [scraper] *)

Module scraper.

(** *** [median] (binance.go)

    A slice is a list; [at_ l i] is [l[i]] and [put l i x] is [l[i] = x].
    Go panics on an index out of range; the loops below keep
    [i < j < len(sorted)], so the values these two give out of range
    ([0], and the list unchanged) are never used. *)

Definition at_ (l : list float) (i : nat) : float := nth i l 0%float.

Fixpoint put (l : list float) (i : nat) (x : float) : list float :=
  match l, i with
  | [], _ => []
  | _ :: t, O => x :: t
  | h :: t, S i' => h :: put t i' x
  end.

(** [for j := ...; j < n; j++ { if sorted[i] > sorted[j] { swap } }], with
    [todo] turns left ([n - j] of them). *)
Fixpoint sortInner (todo i j : nat) (sorted : list float) : list float :=
  match todo with
  | O => sorted
  | S todo' =>
      let sorted :=
        if (at_ sorted j <? at_ sorted i)%float
        then put (put sorted i (at_ sorted j)) j (at_ sorted i)
        else sorted in
      sortInner todo' i (S j) sorted
  end.

(** [for i := ...; i < n-1; i++ { for j := i + 1; j < n; j++ {...} }], with
    [todo] turns left. *)
Fixpoint sortOuter (todo i n : nat) (sorted : list float) : list float :=
  match todo with
  | O => sorted
  | S todo' => sortOuter todo' (S i) n (sortInner (n - S i) i (S i) sorted)
  end.

(** The local [sorted] of [median] once the two loops are done. *)
Definition sortedCopy (prices : list float) : list float :=
  let n := List.length prices in
  sortOuter (n - 1) 0 n prices.

Definition median (prices : list float) : float :=
  let n := List.length prices in
  if Nat.eqb n 0 then 0%float
  else
    let sorted := sortedCopy prices in
    if Nat.eqb (n mod 2) 0
    then ((at_ sorted (n / 2 - 1) + at_ sorted (n / 2)) / 2)%float
    else at_ sorted (n / 2).


(** *** Strings

    A Go string is a sequence of bytes; the functions of packages
    [strings] and [regexp] that [parseVESRate] calls are written on lists
    of bytes. *)

Definition bytes : Type := list ascii.

Definition comma : ascii := ","%char.
Definition dot : ascii := "."%char.

(** [\d] of package [regexp]: an ASCII digit. *)
Definition isDigit (c : ascii) : bool :=
  (48 <=? nat_of_ascii c)%nat && (nat_of_ascii c <=? 57)%nat.

(** A byte the class [[^\d,.]] does not match. *)
Definition isRateChar (c : ascii) : bool :=
  isDigit c || Ascii.eqb c comma || Ascii.eqb c dot.

(** [regexp.MustCompile(`[^\d,.]`).ReplaceAllString(s, "")]. The
    expression matches one rune at a time; a rune of more than one byte, or
    a byte that is no valid UTF-8, consists of bytes from 128 up, none of
    them a digit, a comma or a dot, so removing runes is removing bytes. *)
Definition removeNonRate (s : bytes) : bytes := filter isRateChar s.

(** [strings.Replace(s, ",", ".", -1)]. *)
Definition commasToDots (s : bytes) : bytes :=
  map (fun c => if Ascii.eqb c comma then dot else c) s.

(** [strings.Split(s, ".")]. *)
Fixpoint splitDots (s : bytes) : list bytes :=
  match s with
  | [] => [[]]
  | c :: s' =>
      if Ascii.eqb c dot then [] :: splitDots s'
      else match splitDots s' with
           | p :: ps => (c :: p) :: ps
           | [] => [[c]]
           end
  end.

(** [strings.Join(parts, "")]. *)
Definition joinParts (parts : list bytes) : bytes := List.concat parts.

(** An ASCII white space character: tab, line feed, vertical tab, form
    feed, carriage return, space. *)
Definition asciiSpace (c : nat) : bool := ((9 <=? c) && (c <=? 13) || (c =? 32))%nat.

(** The third byte of U+2000 to U+200A, U+2028, U+2029 and U+202F, after
    226 and 128. *)
Definition generalSpace (c : nat) : bool :=
  ((128 <=? c) && (c <=? 138) || (c =? 168) || (c =? 169) || (c =? 175))%nat.

(** The length in bytes of the white space rune [s] starts with, 0 when it
    starts with none. White space is what [unicode.IsSpace] says: the
    ASCII ones, and U+0085, U+00A0, U+1680, U+2000 to U+200A, U+2028,
    U+2029, U+202F, U+205F and U+3000, here in UTF-8. *)
Definition spaceAtStart (s : bytes) : nat :=
  match map nat_of_ascii (firstn 3 s) with
  | [] => 0%nat
  | c1 :: rest =>
      if asciiSpace c1 then 1%nat
      else
        match rest with
        | [] => 0%nat
        | c2 :: rest' =>
            if ((c1 =? 194) && ((c2 =? 133) || (c2 =? 160)))%nat then 2%nat
            else
              match rest' with
              | [] => 0%nat
              | c3 :: _ =>
                  if ((c1 =? 225) && (c2 =? 154) && (c3 =? 128)
                      || (c1 =? 226) && (c2 =? 128) && generalSpace c3
                      || (c1 =? 226) && (c2 =? 129) && (c3 =? 159)
                      || (c1 =? 227) && (c2 =? 128) && (c3 =? 128))%nat
                  then 3%nat else 0%nat
              end
        end
  end.

(** The same for the rune [s] ends with: [r] is [s] reversed, so the last
    byte of the rune comes first. *)
Definition spaceAtEnd (r : bytes) : nat :=
  match map nat_of_ascii (firstn 3 r) with
  | [] => 0%nat
  | c1 :: rest =>
      if asciiSpace c1 then 1%nat
      else
        match rest with
        | [] => 0%nat
        | c2 :: rest' =>
            if ((c2 =? 194) && ((c1 =? 133) || (c1 =? 160)))%nat then 2%nat
            else
              match rest' with
              | [] => 0%nat
              | c3 :: _ =>
                  if ((c3 =? 225) && (c2 =? 154) && (c1 =? 128)
                      || (c3 =? 226) && (c2 =? 128) && generalSpace c1
                      || (c3 =? 226) && (c2 =? 129) && (c1 =? 159)
                      || (c3 =? 227) && (c2 =? 128) && (c1 =? 128))%nat
                  then 3%nat else 0%nat
              end
        end
  end.

(** Runes dropped from the front while [width] finds one; at most [fuel]
    of them. *)
Fixpoint dropRunes (width : bytes -> nat) (fuel : nat) (s : bytes) : bytes :=
  match fuel with
  | O => s
  | S fuel' =>
      match width s with
      | O => s
      | w => dropRunes width fuel' (skipn w s)
      end
  end.

(** [strings.TrimSpace(s)]: the leading white space goes, then the
    trailing. *)
Definition TrimSpace (s : bytes) : bytes :=
  let s := dropRunes spaceAtStart (List.length s) s in
  rev (dropRunes spaceAtEnd (List.length s) (rev s)).

(** [strings.Contains(s, substr)]. *)
Definition Contains (s substr : string) : bool :=
  match String.index 0 substr s with
  | Some _ => true
  | None => false
  end.

(** [%d]. *)
Definition formatInt (n : Z) : string := DecimalString.NilZero.string_of_int (Z.to_int n).

(** Arguments of a log line that are strings and integers: they travel
    as their text, like the message of an error. *)
Definition ArgString (s : string) : LogArg := ArgError s.
Definition ArgInt (n : Z) : LogArg := ArgError (formatInt n).

(** *** What the program takes from the standard library as it is *)

(** [strconv.ParseFloat(s, 64)]. *)
Class Strconv : Type := { ParseFloat : string -> float * option Go.error }.

(** *** [parseVESRate] (bcv.go) *)

Section Parse.
Context `{Strconv}.

Definition parseVESRate (s : string) : float * option Go.error :=
  let s := list_ascii_of_string s in
  (* Clean the string *)
  let s := TrimSpace s in
  (* Remove any currency symbols, spaces, and non-numeric chars except comma and dot *)
  let s := removeNonRate s in
  match s with
  | [] => (0%float, Some "empty rate string"%string)
  | _ :: _ =>
      (* Replace comma with dot for parsing *)
      let s := commasToDots s in
      (* Handle multiple dots (thousand separators) *)
      let parts := splitDots s in
      let s :=
        if (2 <? List.length parts)%nat
        then joinParts (removelast parts) ++ [dot] ++ last parts []
        else s in
      let s := string_of_list_ascii s in
      match ParseFloat s with
      | (rate, None) => (rate, None)
      | (_, Some err) =>
          (0%float, Some ("failed to parse rate '" ++ s ++ "': " ++ err)%string)
      end
  end.

End Parse.

(** *** [BCVScraper.Fetch] (bcv.go)

    Colly fetches the page inside [c.Visit] and calls the registered
    callbacks on what it finds. Of an element a callback reads the text of
    its [strong] children, its own text, and whether its parent contains
    an element [#dolar]. Which callbacks are called, on which elements and
    in which order is Colly's and the page's business: a visit is any list
    of calls, followed by the error [c.Visit] returns. *)

Record HTMLElement : Type := {
  ChildText_strong : string;    (* e.ChildText("strong") *)
  Text : string;                (* e.Text *)
  parentHasDolar : bool         (* e.DOM.Parent().Find("#dolar").Length() > 0 *)
}.

Inductive Callback : Type :=
| OnHTML_dolar (e : HTMLElement)       (* "#dolar" *)
| OnHTML_recuadro (e : HTMLElement)    (* ".recuadrotsmc .centmark" *)
| OnHTML_col (e : HTMLElement)         (* "div.col-sm-6.col-xs-6.centmark" *)
| OnHTML_strong (e : HTMLElement)      (* "strong" *)
| OnError (err : Go.error) (statusCode : Z)
| OnRequest (url : string).

Record Visit : Type := {
  calls : list Callback;
  visitError : option Go.error    (* what c.Visit(bcvURL) returns *)
}.

(** The variables of [Fetch] the callbacks share. *)
Record FetchVars : Type := {
  rate : float;
  scrapeErr : option Go.error;
  found : bool
}.

Section BCV.
Context `{Strconv}.

Definition textOrChildText (e : HTMLElement) : string :=
  let rateStr := ChildText_strong e in
  if String.eqb rateStr "" then Text e else rateStr.

(** The assignment [rate = parsed; found = true] and its log line. *)
Definition foundRate (format : string) (parsed : float) (v : FetchVars) : M FetchVars :=
  (log_Printf format [ArgFloat parsed] ;;
   ret {| rate := parsed; scrapeErr := scrapeErr v; found := true |})%sys.

Definition callback (c : Callback) (v : FetchVars) : M FetchVars :=
  match c with
  | OnHTML_dolar e =>
      (* Try to find the rate value within the USD section *)
      let '(parsed, err) := parseVESRate (textOrChildText e) in
      match err with
      | None =>
          if (0 <? parsed)%float
          then foundRate "BCV: Found USD rate using #dolar selector: %.4f" parsed v
          else ret v
      | Some _ => ret v
      end
  | OnHTML_recuadro e =>
      if found v then ret v
      else if parentHasDolar e || Contains (Text e) "USD" then
        let '(parsed, err) := parseVESRate (textOrChildText e) in
        match err with
        | None =>
            if (0 <? parsed)%float
            then foundRate "BCV: Found USD rate using fallback selector: %.4f" parsed v
            else ret v
        | Some _ => ret v
        end
      else ret v
  | OnHTML_col e =>
      if found v then ret v
      else
        let '(parsed, err) := parseVESRate (ChildText_strong e) in
        match err with
        | None =>
            if (0 <? parsed)%float
            then foundRate "BCV: Found USD rate using col-sm-6 selector: %.4f" parsed v
            else ret v
        | Some _ => ret v
        end
  | OnHTML_strong e =>
      if found v then ret v
      else
        let '(parsed, err) := parseVESRate (Text e) in
        match err with
        | None =>
            (* Reasonable USD/VES rate range check *)
            if (20 <? parsed)%float && (parsed <? 200)%float
            then foundRate "BCV: Found USD rate using strong tag fallback: %.4f" parsed v
            else ret v
        | Some _ => ret v
        end
  | OnError err statusCode =>
      let e := ("BCV request failed: " ++ err ++ " (status: " ++ formatInt statusCode ++ ")")%string in
      (log_Printf "BCV scrape error: %v" [ArgError e] ;;
       ret {| rate := rate v; scrapeErr := Some e; found := found v |})%sys
  | OnRequest url =>
      (log_Printf "BCV: Scraping %s" [ArgString url] ;; ret v)%sys
  end.

Fixpoint runCalls (cs : list Callback) (v : FetchVars) : M FetchVars :=
  match cs with
  | [] => ret v
  | c :: cs' => (v <- callback c v ;; runCalls cs' v)%sys
  end.

Definition BCVScraper_Fetch (visit : Visit) : M (float * option Go.error) :=
  (v <- runCalls (calls visit) {| rate := 0; scrapeErr := None; found := false |} ;;
   match visitError visit with
   | Some err => ret (0%float, Some ("failed to visit BCV: " ++ err)%string)
   | None =>
       match scrapeErr v with
       | Some err => ret (0%float, Some err)
       | None =>
           if negb (found v) || (rate v =? 0)%float
           then ret (0%float, Some "BCV: USD rate not found on page"%string)
           else ret (rate v, None)
       end
   end)%sys.

End BCV.

(** *** [BinanceFetcher.Fetch] (binance.go) *)

(** [binanceResponse]. *)
Record binanceAdv : Type := {
  Price : string;
  Asset : string;
  FiatUnit : string;
  TradeType : string;
  SurplusAmount : string
}.

Record binanceAdvertiser : Type := {
  NickName : string;
  MonthFinishRate : float;
  PositiveRate : float
}.

Record binanceDatum : Type := { Adv : binanceAdv; Advertiser : binanceAdvertiser }.

Record binanceResponse : Type := {
  Code : string;
  Message : string;
  Data : list binanceDatum;
  Total : Z
}.

(** [json.Unmarshal(body, &result)]: the response read from [body], or the
    error. *)
Class Json : Type := { Unmarshal : string -> binanceResponse * option Go.error }.

(** What the network does with the request: [f.client.Do(req)] fails, or
    answers with a status code and a body that [io.ReadAll] reads or
    fails to read. Building the request cannot fail: the payload is a
    struct of strings, numbers and booleans and the URL is a constant. *)
Inductive Exchange : Type :=
| DoFailed (err : Go.error)
| Response (StatusCode : Z) (body : string * option Go.error).

Section Binance.
Context `{Strconv} `{Json}.

(** The loop over [result.Data]. *)
Fixpoint collectPrices (data : list binanceDatum) (prices : list float) : M (list float) :=
  match data with
  | [] => ret prices
  | ad :: data' =>
      let '(price, err) := ParseFloat (Price (Adv ad)) in
      match err with
      | Some e =>
          (log_Printf "Binance: Failed to parse price '%s': %v"
                      [ArgString (Price (Adv ad)); ArgError e] ;;
           collectPrices data' prices)%sys
      | None => collectPrices data' (prices ++ [price])
      end
  end.

Definition BinanceFetcher_Fetch (x : Exchange) : M (float * option Go.error) :=
  (log_Printf "Binance: Fetching P2P USDT/VES rates" [] ;;
   match x with
   | DoFailed err => ret (0%float, Some ("binance request failed: " ++ err)%string)
   | Response StatusCode (body, readErr) =>
       if negb (StatusCode =? 200) then
         ret (0%float,
              Some ("binance returned status " ++ formatInt StatusCode ++ ": " ++ body)%string)
       else
         match readErr with
         | Some err => ret (0%float, Some ("failed to read response: " ++ err)%string)
         | None =>
             let '(result, err) := Unmarshal body in
             match err with
             | Some err => ret (0%float, Some ("failed to parse response: " ++ err)%string)
             | None =>
                 match Data result with
                 | [] => ret (0%float, Some "no P2P ads found for USDT/VES"%string)
                 | _ :: _ =>
                     (* Calculate median price from first few results *)
                     prices <- collectPrices (Data result) [] ;;
                     match prices with
                     | [] => ret (0%float, Some "no valid prices found"%string)
                     | _ :: _ =>
                         (* Use the median price for a more stable rate *)
                         let rate := median prices in
                         log_Printf "Binance: Found %d prices, median: %.2f"
                                    [ArgInt (Z.of_nat (List.length prices));
                                     ArgFloat rate] ;;
                         ret (rate, None)
                     end
                 end
             end
         end
   end)%sys.

End Binance.
End scraper.

(** ** The specification's breach

    What the specification writes, taken at its word: the breach is
    ((B - A) / A) x 100 truncated to two decimal places. The quotient is
    computed here in exact rational arithmetic from the exact values of the
    two stored floats. *)

Module Spec.

(** The integer part of a rational: the fraction is dropped, towards zero. *)
Definition Qtrunc (q : Q) : Z := Z.quot (Qnum q) (Zpos (Qden q)).

(** The exact value of a binary64 number ([0] for NaN and the infinities). *)
Definition SF2Q (f : spec_float) : Q :=
  match f with
  | S754_finite s m e =>
      let v := if 0 <=? e then inject_Z (Zpos m * 2 ^ e)
               else Qmake (Zpos m) (2 ^ Z.to_pos (- e))%positive in
      if s then Qopp v else v
  | _ => 0%Q
  end.

Definition F2Q (f : float) : Q := SF2Q (Prim2SF f).

(** ((b - a) / a) x 100, exactly. *)
Definition exactBreach (a b : float) : Q := ((F2Q b - F2Q a) / F2Q a * 100)%Q.

(** [x] truncated to two decimal places, as a count of hundredths. *)
Definition hundredths (x : Q) : Z := Qtrunc (x * 100)%Q.

(** The exact breach truncated to two decimal places, as a [float64]: the
    count of hundredths divided by 100, which is the binary64 number
    nearest to the decimal while the count is one a [float64] holds
    exactly. *)
Definition breach (a b : float) : float :=
  (Go.float64_of_int (hundredths (exactBreach a b)) / 100)%float.

End Spec.

(** ** Vocabulary of the statements *)

(** [Refresh(source)], the specification's name for [FetchBCV] and
    [FetchBinance]. *)
Definition Refresh `{time.LocalZone} {B F : Type} `{rates.Scraper B} `{rates.Scraper F}
  (src : Source) (s : rates.Service B F) : M (option Go.error * rates.Service B F) :=
  match src with
  | SrcBCV => rates.FetchBCV s
  | SrcBinance => rates.FetchBinance s
  end.

(** What the fetcher of [src] answers when [Refresh src] calls it. *)
Definition fetcherAnswer {B F : Type} `{rates.Scraper B} `{rates.Scraper F}
  (src : Source) (s : rates.Service B F) : float * option Go.error :=
  match src with
  | SrcBCV => fst (rates.Fetch (rates.bcvScraper s))
  | SrcBinance => fst (rates.Fetch (rates.binanceFetcher s))
  end.

(** The value the [k]-th next call of [time.Now()] returns, counting
    from 0. *)
Definition nthNow `{time.LocalZone} (w : World) (k : nat) : time.Time :=
  fst (time_Now {| clock := clock w; ticks := ticks w + k; trace := trace w |}).

(** 11:30 in Caracas on the day (there) of the instant [s], in Unix
    seconds. *)
Definition todayTarget (s : Z) : Z := (s - 14400) / 86400 * 86400 + 41400 + 14400.

(** Exactly 11:30:00.000000000 in Caracas, on a Monday to Friday. *)
Definition atTargetInstant (t : time.Time) : bool :=
  (time.localSec (time.Time_In t scheduler.VET) mod 86400 =? 41400)
  && (time.nsec t =? 0)
  && negb (scheduler.onWeekend (time.Time_In t scheduler.VET)).

(** ** Fixtures: scrapers, a zone, a clock and stores to run the code on *)

(** A scraper that always fails with the error it holds. *)
#[global] Instance failingScraper : rates.Scraper Go.error :=
  {| rates.Fetch := fun e => ((0%float, Some e), e) |}.

(** A scraper that answers the rates it holds, one after the other, and
    fails when it has none left. *)
#[global] Instance scriptedScraper : rates.Scraper (list float) :=
  {| rates.Fetch := fun l =>
       match l with
       | r :: l' => ((r, None), l')
       | [] => ((0%float, Some "no data"%string), [])
       end |}.

(** A process whose zone is UTC, as in the container image. *)
#[global] Instance utcZone : time.LocalZone := {| time.localOffset := fun _ => 0 |}.

(** A clock that starts on Monday 2024-01-01 at 11:30:00 in Caracas
    (15:30:00 UTC) and gains a second with every reading. *)
Definition world0 : World :=
  {| clock := fun n => {| rd_sec := 1704123000 + Z.of_nat n; rd_nsec := 0;
                          rd_mono := Z.of_nat n |};
     ticks := 0; trace := [] |}.

(** The store after a Binance fetch that gave [b] and a BCV fetch that
    gave [a], as [Initialize] leaves it when both succeed. *)
Definition storeOf (a b : float) : rates.RateStore :=
  let (s, w) := rates.SetBinance rates.NewRateStore b world0 in
  fst (rates.SetBCV s a w).

(** The store after a Binance fetch that gave [b], the BCV rate never set. *)
Definition storeWithoutBCV (b : float) : rates.RateStore :=
  fst (rates.SetBinance rates.NewRateStore b world0).

(** The instant [s] seconds after the epoch, as the clock would read it. *)
Definition instant (s : Z) : time.Time :=
  {| time.sec := s; time.nsec := 0; time.mono := Some 0; time.loc := time.UTC |}.

(** ** Vocabulary of the statements about [parseVESRate] *)

(** The ASCII digits of [s], in order. *)
Definition digitsOf (s : string) : string :=
  string_of_list_ascii (filter scraper.isDigit (list_ascii_of_string s)).

(** Whether [s] has a comma or a dot. *)
Definition hasSeparator (s : string) : bool :=
  existsb (fun c => Ascii.eqb c scraper.comma || Ascii.eqb c scraper.dot)
          (list_ascii_of_string s).

(** What [parseVESRate] makes of the answer of [strconv.ParseFloat] to the
    string [s] it hands it. *)
Definition parsedAs `{scraper.Strconv} (s : string) : float * option Go.error :=
  match scraper.ParseFloat s with
  | (rate, None) => (rate, None)
  | (_, Some err) => (0%float, Some ("failed to parse rate '" ++ s ++ "': " ++ err)%string)
  end.

(** A [strconv.ParseFloat] for the fixtures: digits with at most one dot
    among them, fifteen digits at most, which it reads as the library does
    (an integer up to 10^15 divided by a power of ten up to 10^15 is one
    correctly rounded division); anything else it refuses. *)
Fixpoint decimalDigits (l : list ascii) (n k : Z) (dotSeen : bool) : option (Z * Z) :=
  match l with
  | [] => Some (n, k)
  | c :: l' =>
      if scraper.isDigit c
      then decimalDigits l' (10 * n + (Z.of_nat (nat_of_ascii c) - 48))
                         (if dotSeen then k + 1 else k) dotSeen
      else if Ascii.eqb c scraper.dot && negb dotSeen then decimalDigits l' n k true
      else None
  end.

#[global] Instance shortDecimals : scraper.Strconv :=
  {| scraper.ParseFloat := fun s =>
       let l := list_ascii_of_string s in
       let digits := List.length (filter scraper.isDigit l) in
       match decimalDigits l 0 0 false with
       | Some (n, k) =>
           if ((1 <=? digits) && (digits <=? 15))%nat
           then ((Go.float64_of_int n / Go.float64_of_int (10 ^ k))%float, None)
           else (0%float, Some "invalid syntax"%string)
       | None => (0%float, Some "invalid syntax"%string)
       end |}.

(** The prices of the advertisements that [strconv.ParseFloat] accepts, in
    the order of the advertisements. *)
Fixpoint parsablePrices `{scraper.Strconv} (data : list scraper.binanceDatum) : list float :=
  match data with
  | [] => []
  | ad :: data' =>
      match scraper.ParseFloat (scraper.Price (scraper.Adv ad)) with
      | (price, None) => price :: parsablePrices data'
      | (_, Some _) => parsablePrices data'
      end
  end.

(** A [json.Unmarshal] scripted to decode every body as [result]. *)
Definition scriptedJson (result : scraper.binanceResponse) : scraper.Json :=
  {| scraper.Unmarshal := fun _ => (result, None) |}.

(** An advertisement with the price [price]. *)
Definition adPriced (price : string) : scraper.binanceDatum :=
  {| scraper.Adv := {| scraper.Price := price; scraper.Asset := "USDT";
                       scraper.FiatUnit := "VES"; scraper.TradeType := "BUY";
                       scraper.SurplusAmount := "100" |};
     scraper.Advertiser := {| scraper.NickName := "ana";
                              scraper.MonthFinishRate := 1;
                              scraper.PositiveRate := 1 |} |}.

(** ** Vocabulary of the statements about the jobs *)

(** The timer cases a job's [select]s take before the first stop case. *)
Fixpoint ticksBeforeStop (choices : list scheduler.Select) : nat :=
  match choices with
  | scheduler.TimerFired :: rest => S (ticksBeforeStop rest)
  | _ => 0%nat
  end.

(** The job that refreshes the source [src]. *)
Definition jobOf `{time.LocalZone} {B F : Type} `{rates.Scraper B} `{rates.Scraper F}
  (src : Source) (choices : list scheduler.Select) (svc : rates.Service B F)
  : M (rates.Service B F) :=
  match src with
  | SrcBCV => scheduler.bcvDailyJob choices svc
  | SrcBinance => scheduler.binanceJob choices svc
  end.

(** The wall-clock instant [s] seconds after the epoch, shown in Caracas. *)
Definition wallTime (s : Z) : time.Time :=
  {| time.sec := s; time.nsec := 0; time.mono := None; time.loc := scheduler.VET |}.

(** The wall clock of [t] reads no later than that of [u]; the monotonic
    readings are left out. *)
Definition wallClockLe (t u : time.Time) : bool :=
  (time.sec t <? time.sec u)
  || ((time.sec t =? time.sec u) && (time.nsec t <=? time.nsec u)).

(** A process nine hours east of Greenwich. *)
Definition tokyoZone : time.LocalZone := {| time.localOffset := fun _ => 9 * 60 * 60 |}.

(** * Properties *)

(** ** Floats: the guard of the breach formula *)

Lemma Prim2SF_zero : Prim2SF 0%float = S754_zero false.
Proof. reflexivity. Qed.

Lemma float_not_pos_of_zero (x : float) :
  (x =? 0)%float = true -> (0 <? x)%float = false.
Proof.
  rewrite FloatAxioms.eqb_spec, FloatAxioms.ltb_spec, Prim2SF_zero.
  unfold SFeqb, SFltb, SFcompare.
  destruct (Prim2SF x) as [s | s | | s m e]; try destruct s; simpl; congruence.
Qed.

Lemma float_not_pos_of_neg (x : float) :
  (x <? 0)%float = true -> (0 <? x)%float = false.
Proof.
  rewrite !FloatAxioms.ltb_spec, Prim2SF_zero.
  unfold SFltb, SFcompare.
  destruct (Prim2SF x) as [s | s | | s m e]; try destruct s; simpl; congruence.
Qed.

(** ** Floats: [int(f)] drops the fraction of the exact value *)

Lemma trunc_finite_exact (s : bool) (m : positive) (e : Z) :
  Go.trunc_finite s m e = Spec.Qtrunc (Spec.SF2Q (S754_finite s m e)).
Proof.
  unfold Go.trunc_finite, Spec.Qtrunc, Spec.SF2Q.
  destruct (Z.leb_spec 0 e) as [He|He].
  - rewrite Z.shiftl_mul_pow2 by lia.
    destruct s; cbn [Qopp Qnum Qden inject_Z]; rewrite ?Z.quot_opp_l by lia;
      now rewrite Z.quot_1_r.
  - rewrite Z.shiftr_div_pow2 by lia.
    assert (Hp : Zpos (2 ^ Z.to_pos (- e)) = 2 ^ (- e)).
    { rewrite Pos2Z.inj_pow, Z2Pos.id by lia. reflexivity. }
    assert (Hq : Z.quot (Zpos m) (2 ^ (- e)) = Zpos m / 2 ^ (- e)).
    { apply Z.quot_div_nonneg; [lia|]. apply Z.pow_pos_nonneg; lia. }
    destruct s; cbn [Qopp Qnum Qden]; rewrite Hp.
    + change (- Zpos m) with (Z.opp (Zpos m)).
      rewrite Z.quot_opp_l by (apply Z.pow_nonzero; lia). now rewrite Hq.
    + now rewrite Hq.
Qed.

Lemma float64_trunc_exact (f : float) (z : Z) :
  Go.float64_trunc f = Some z -> z = Spec.Qtrunc (Spec.F2Q f).
Proof.
  unfold Go.float64_trunc, Spec.F2Q.
  destruct (Prim2SF f) as [s | s | | s m e]; intros Hz; inversion Hz; subst.
  - reflexivity.
  - apply trunc_finite_exact.
Qed.

Lemma int_of_float64_exact `{Go.Arch} (f : float) :
  Go.int_of_float64 f
  = if Go.fits_int f then Spec.Qtrunc (Spec.F2Q f) else Go.int_of_unrepresentable f.
Proof.
  unfold Go.fits_int, Go.int_of_float64.
  destruct (Go.float64_trunc f) as [z|] eqn:Hz; [|reflexivity].
  destruct ((Go.int64_min <=? z) && (z <=? Go.int64_max)); [|reflexivity].
  now apply float64_trunc_exact.
Qed.

(** ** [RateStore.GetRateData] *)

Section GetRateData.
Context `{Go.Arch}.

Lemma breach_of_zero_raw :
  (Go.float64_of_int (Go.int_of_float64 (0 * 100)%float) / 100)%float = 0%float.
Proof. vm_compute. reflexivity. Qed.

(** When the guard [s.bcv > 0] fails the breach is 0, whatever the
    division of the formula would have done. *)
Lemma GetRateData_unguarded (quo : float -> float -> float) (s : rates.RateStore) :
  (0 <? rates.bcv s)%float = false ->
  rates.Breach (rates.GetRateData_with quo s) = 0%float
  /\ rates.GetRateData_with quo s = rates.GetRateData s.
Proof.
  intros Hg. unfold rates.GetRateData, rates.GetRateData_with. rewrite Hg.
  split; [apply breach_of_zero_raw | reflexivity].
Qed.

(** What [GetRateData] computes. For a store with BCV value a > 0 and
    Binance value b, let p be the binary64 product ((b - a) / a * 100) * 100,
    every operation rounded to nearest. The breach returned is float64(k) / 100,
    where k is the exact value of p with its fraction dropped (truncated
    towards zero, not rounded) when that integer fits an [int], and what
    the implementation makes of [int(p)] otherwise. *)
Theorem breach_truncates_float_product (s : rates.RateStore) :
  let p := ((rates.binance s - rates.bcv s) / rates.bcv s * 100 * 100)%float in
  (0 <? rates.bcv s)%float = true ->
  rates.Breach (rates.GetRateData s)
  = (Go.float64_of_int
       (if Go.fits_int p then Spec.Qtrunc (Spec.F2Q p)
        else Go.int_of_unrepresentable p) / 100)%float.
Proof.
  intros p Hpos.
  unfold rates.GetRateData, rates.GetRateData_with. rewrite Hpos.
  cbn [rates.Breach]. fold p. now rewrite int_of_float64_exact.
Qed.

(** C3. For a store whose BCV value is zero (the unset value, or a zero of
    either sign), [GetRateData] returns breach = 0 whatever the Binance
    value is, and the result is the same whatever the division of the
    breach formula does: that division is not evaluated. *)
Theorem breach_zero_when_bcv_zero (s : rates.RateStore) :
  (rates.bcv s =? 0)%float = true ->
  rates.Breach (rates.GetRateData s) = 0%float
  /\ forall quo : float -> float -> float,
       rates.GetRateData_with quo s = rates.GetRateData s.
Proof.
  intros Hz. apply float_not_pos_of_zero in Hz. split.
  - apply (GetRateData_unguarded PrimFloat.div s Hz).
  - intros quo. apply (GetRateData_unguarded quo s Hz).
Qed.

(** C10. For a store whose BCV value is strictly negative, the guard
    [s.bcv > 0] is false and [GetRateData] returns breach = 0: the formula
    is applied to strictly positive BCV values only. *)
Theorem breach_zero_when_bcv_negative (s : rates.RateStore) :
  (rates.bcv s <? 0)%float = true ->
  (0 <? rates.bcv s)%float = false
  /\ rates.Breach (rates.GetRateData s) = 0%float.
Proof.
  intros Hn. apply float_not_pos_of_neg in Hn. split; [exact Hn|].
  apply (GetRateData_unguarded PrimFloat.div s Hn).
Qed.

(** C6. [UpdatedAt] is the later of the two timestamps of the store: it is
    one of them, and neither of them is after it (in the sense of
    [Time.After], which the code compares them with). *)
Theorem UpdatedAt_is_later_timestamp (s : rates.RateStore) :
  let u := rates.UpdatedAt (rates.GetRateData s) in
  (u = rates.bcvTime s \/ u = rates.binTime s)
  /\ time.Time_After (rates.bcvTime s) u = false
  /\ time.Time_After (rates.binTime s) u = false.
Proof.
  unfold rates.GetRateData, rates.GetRateData_with. cbn [rates.UpdatedAt].
  destruct (time.Time_After (rates.binTime s) (rates.bcvTime s)) eqn:Ha; cbv zeta.
  - split; [now right|]. split.
    + revert Ha. unfold time.Time_After.
      destruct (time.mono (rates.binTime s)), (time.mono (rates.bcvTime s)); lia.
    + unfold time.Time_After. destruct (time.mono (rates.binTime s)); lia.
  - split; [now left|]. split; [|exact Ha].
    unfold time.Time_After. destruct (time.mono (rates.bcvTime s)); lia.
Qed.

(** In numbers: when both timestamps carry a monotonic reading (both
    fields have been set) [UpdatedAt] has the larger reading; when neither
    does (both are still the zero time, say) it has the larger count of
    nanoseconds on the wall clock. *)
Lemma UpdatedAt_max (s : rates.RateStore) :
  let u := rates.UpdatedAt (rates.GetRateData s) in
  (forall a b : Z,
     time.mono (rates.bcvTime s) = Some a -> time.mono (rates.binTime s) = Some b ->
     time.mono u = Some (Z.max a b))
  /\ (time.mono (rates.bcvTime s) = None -> time.mono (rates.binTime s) = None ->
      time.valid (rates.bcvTime s) -> time.valid (rates.binTime s) ->
      time.sec u * 10 ^ 9 + time.nsec u
      = Z.max (time.sec (rates.bcvTime s) * 10 ^ 9 + time.nsec (rates.bcvTime s))
              (time.sec (rates.binTime s) * 10 ^ 9 + time.nsec (rates.binTime s))).
Proof.
  unfold rates.GetRateData, rates.GetRateData_with, time.valid. cbn [rates.UpdatedAt].
  unfold time.Time_After. cbv zeta. split.
  - intros a b Ha Hb. rewrite Ha, Hb.
    destruct (Z.ltb_spec a b); [rewrite Hb | rewrite Ha]; f_equal; lia.
  - intros Ha Hb Hva Hvb. rewrite Ha, Hb.
    destruct (Z.ltb_spec (time.sec (rates.bcvTime s)) (time.sec (rates.binTime s)));
      cbn [orb]; [lia|].
    destruct (Z.eqb_spec (time.sec (rates.binTime s)) (time.sec (rates.bcvTime s)));
      cbn [andb]; [|lia].
    destruct (Z.ltb_spec (time.nsec (rates.bcvTime s)) (time.nsec (rates.binTime s)));
      lia.
Qed.

End GetRateData.

(** C2. The code misses the breach by a slip of its float arithmetic. With
    BCV = 100 and Binance = 129 the breach ((B - A) / A) x 100 is 29, which
    is 29.00 to two decimal places, truncated as the specification has it or
    rounded as the comment in [GetRateData] has it; the code computes
    29/100 = 0.28999999999999998, times 100 = 28.999999999999996, times 100
    = 2899.9999999999995, whose integer part is 2899, and returns 28.99. *)
Lemma breach_differs_from_exact_truncation :
  let s := storeOf 100 129 in
  (0 <? rates.bcv s)%float = true
  /\ ((rates.binance s - rates.bcv s) / rates.bcv s * 100)%float = 28.999999999999996%float
  /\ Go.int_of_float64
       ((rates.binance s - rates.bcv s) / rates.bcv s * 100 * 100)%float = 2899
  /\ rates.Breach (rates.GetRateData s) = 28.99%float
  /\ Spec.hundredths (Spec.exactBreach (rates.bcv s) (rates.binance s)) = 2900
  /\ Spec.breach (rates.bcv s) (rates.binance s) = 29%float
  /\ (rates.Breach (rates.GetRateData s) =? Spec.breach (rates.bcv s) (rates.binance s))%float
     = false.
Proof. vm_compute. repeat split; reflexivity. Qed.

(** The example of the specification: BCV = 45.82 and Binance = 46.31 give
    the breach 1.06, not 1.07. *)
Lemma breach_truncates_float_product_witness :
  let s := storeOf 45.82 46.31 in
  (0 <? rates.bcv s)%float = true
  /\ rates.Breach (rates.GetRateData s) = 1.06%float
  /\ (rates.Breach (rates.GetRateData s) =? 1.07)%float = false.
Proof.
  intros s.
  assert (Hpos : (0 <? rates.bcv s)%float = true) by (vm_compute; reflexivity).
  split; [exact Hpos|].
  rewrite (@breach_truncates_float_product Go.amd64 s Hpos).
  vm_compute. split; reflexivity.
Defined.

(** On that example the code and the specification's formula agree. *)
Example breach_example_agrees :
  Spec.breach 45.82 46.31 = rates.Breach (rates.GetRateData (storeOf 45.82 46.31)).
Proof. vm_compute. reflexivity. Qed.

(** Rounding can also push the product up to the next integer: with
    BCV = 125 and Binance = 128 the float breach is just below 2.4, and the
    code returns 2.40. *)
Example breach_rounded_up :
  let s := storeOf 125 128 in
  Spec.Qtrunc (Spec.F2Q ((rates.binance s - rates.bcv s) / rates.bcv s * 100)%float * 100)%Q
  = 239
  /\ Go.int_of_float64 ((rates.binance s - rates.bcv s) / rates.bcv s * 100 * 100)%float
     = 240.
Proof. vm_compute. split; reflexivity. Qed.

Lemma breach_zero_when_bcv_zero_witness :
  let s := storeWithoutBCV 46.31 in
  (rates.bcv s =? 0)%float = true
  /\ rates.Breach (rates.GetRateData s) = 0%float
  /\ forall quo : float -> float -> float,
       rates.GetRateData_with quo s = rates.GetRateData s.
Proof.
  intros s. split; [reflexivity|].
  apply (@breach_zero_when_bcv_zero Go.amd64 s). reflexivity.
Defined.

(** [SetBCV] stores what it is given, a negative rate included. *)
Lemma breach_zero_when_bcv_negative_witness :
  let s := fst (rates.SetBCV (storeWithoutBCV 46.31) (-5)%float world0) in
  (rates.bcv s = (-5)%float /\ (rates.bcv s <? 0)%float = true)
  /\ (0 <? rates.bcv s)%float = false
  /\ rates.Breach (rates.GetRateData s) = 0%float.
Proof.
  intros s. split; [split; reflexivity|].
  apply (@breach_zero_when_bcv_negative Go.amd64 s). reflexivity.
Defined.

(** ** [Service]: refreshing and initializing *)

Lemma fetches_app (tr1 tr2 : list Event) :
  fetches (tr1 ++ tr2) = fetches tr1 ++ fetches tr2.
Proof.
  induction tr1 as [|[src|fmt args] tr1 IH]; simpl;
    [reflexivity | now rewrite IH | exact IH].
Qed.

Section ServiceProps.
Context `{time.LocalZone}.
Context {B F : Type} `{rates.Scraper B} `{rates.Scraper F}.

(** C1. When the fetcher of a source fails with the error e, the refresh
    of that source ([FetchBCV] or [FetchBinance]) returns e itself and
    leaves the store as it was: values and timestamps, of both sources. *)
Theorem failed_refresh_keeps_store
  (src : Source) (s : rates.Service B F) (w : World) (e : Go.error) :
  snd (fetcherAnswer src s) = Some e ->
  fst (fst (Refresh src s w)) = Some e
  /\ rates.store (snd (fst (Refresh src s w))) = rates.store s.
Proof.
  destruct src; simpl;
    unfold rates.FetchBCV, rates.FetchBinance, rates.call_Fetch, bind, emit, ret.
  - destruct (rates.Fetch (rates.bcvScraper s)) as [[rate err] sc]; simpl.
    intros ->. simpl. split; reflexivity.
  - destruct (rates.Fetch (rates.binanceFetcher s)) as [[rate err] sc]; simpl.
    intros ->. simpl. split; reflexivity.
Qed.

(** C7. [Initialize] calls the Binance fetcher first and the BCV fetcher
    second, once each, whatever either of them answers; each store field is
    overwritten exactly when its own fetch succeeded. [Initialize] has no
    error to return: it is a total function to the service it leaves. *)
Theorem Initialize_runs_both_fetches (s : rates.Service B F) (w : World) :
  let binanceAnswer := rates.Fetch (rates.binanceFetcher s) in
  let bcvAnswer := rates.Fetch (rates.bcvScraper s) in
  let r := rates.Initialize s w in
  fetches (trace (snd r)) = fetches (trace w) ++ [SrcBinance; SrcBCV]
  /\ rates.binanceFetcher (fst r) = snd binanceAnswer
  /\ rates.bcvScraper (fst r) = snd bcvAnswer
  /\ rates.binance (rates.store (fst r)) =
       match snd (fst binanceAnswer) with
       | None => fst (fst binanceAnswer)
       | Some _ => rates.binance (rates.store s)
       end
  /\ rates.bcv (rates.store (fst r)) =
       match snd (fst bcvAnswer) with
       | None => fst (fst bcvAnswer)
       | Some _ => rates.bcv (rates.store s)
       end.
Proof.
  unfold rates.Initialize, rates.FetchBinance, rates.FetchBCV, rates.call_Fetch,
    rates.SetBinance, rates.SetBCV, log_Println, log_Printf, time_Now, bind, emit, ret.
  cbv zeta.
  destruct (rates.Fetch (rates.binanceFetcher s)) as [[rate1 err1] sc1].
  destruct err1; cbn -[fetches];
    destruct (rates.Fetch (rates.bcvScraper s)) as [[rate2 err2] sc2];
    destruct err2; cbn -[fetches]; rewrite <- ?app_assoc, !fetches_app;
    cbn; rewrite ?app_nil_r; repeat split; reflexivity.
Qed.

End ServiceProps.

Lemma failed_refresh_keeps_store_witness :
  let s := {| rates.store := storeOf 45.82 46.31;
              rates.bcvScraper := "bcv.org.ve unreachable"%string;
              rates.binanceFetcher := [46.5%float] |} in
  snd (fetcherAnswer SrcBCV s) = Some "bcv.org.ve unreachable"%string
  /\ fst (fst (Refresh SrcBCV s world0)) = Some "bcv.org.ve unreachable"%string
  /\ rates.store (snd (fst (Refresh SrcBCV s world0))) = rates.store s.
Proof.
  intros s. split; [reflexivity|].
  apply (@failed_refresh_keeps_store utcZone _ _ _ _ SrcBCV s world0).
  reflexivity.
Defined.

(** A run of [Initialize]: Binance answers 46.5, BCV is unreachable. *)
Example Initialize_with_failing_BCV :
  let s := {| rates.store := rates.NewRateStore;
              rates.bcvScraper := "bcv.org.ve unreachable"%string;
              rates.binanceFetcher := [46.5%float] |} in
  let r := @rates.Initialize utcZone _ _ _ _ s world0 in
  rates.binance (rates.store (fst r)) = 46.5%float
  /\ rates.bcv (rates.store (fst r)) = 0%float
  /\ trace (snd r) =
     [EvLog "Initializing rate data..." [];
      EvFetch SrcBinance;
      EvLog "Binance rate updated: %.2f" [ArgFloat 46.5];
      EvFetch SrcBCV;
      EvLog "BCV fetch error (keeping previous value): %v"
            [ArgError "bcv.org.ve unreachable"%string];
      EvLog "Initial BCV fetch failed: %v" [ArgError "bcv.org.ve unreachable"%string];
      EvLog "Rate data initialization complete" []].
Proof. vm_compute. repeat split; reflexivity. Qed.

(** ** The daily BCV job *)

Section JobProps.
Context `{time.LocalZone}.
Context {B F : Type} `{rates.Scraper B} `{rates.Scraper F}.

(** A turn of the loop of [bcvDailyJob] reads the clock three times:
    for the next target, for the wait, and on waking. When the [select]
    takes the timer, [FetchBCV] is called (once) exactly when the day of
    the waking reading, in the zone of the process, is not a Saturday or a
    Sunday; on a weekend nothing is fetched. Either way the loop goes on to
    compute the next target; only the stop case ends it, without a fetch. *)
Theorem bcvDailyJob_fetches_on_weekday_wake_only
  (choice : scheduler.Select) (svc : rates.Service B F) (w : World) :
  let wake := nthNow w 2 in
  let r := scheduler.bcvDailyJob_iteration choice svc w in
  fetches (trace (snd r)) =
    fetches (trace w) ++
      match choice with
      | scheduler.StopClosed => []
      | scheduler.TimerFired => if scheduler.onWeekend wake then [] else [SrcBCV]
      end
  /\ fst (fst r) =
       match choice with
       | scheduler.StopClosed => false
       | scheduler.TimerFired => true
       end.
Proof.
  unfold scheduler.bcvDailyJob_iteration, scheduler.nextBCVRunTime, time_Until,
    scheduler.bcvDailyJob_wake, scheduler.isWeekday, scheduler.onWeekend, nthNow,
    rates.FetchBCV, rates.call_Fetch, rates.SetBCV,
    log_Println, log_Printf, time_Now, bind, emit, ret.
  destruct choice; cbn -[fetches scheduler.nextBCVRunTimeAt time.Time_Sub time.Time_Weekday].
  - rewrite <- ?app_assoc, !fetches_app. cbn. now rewrite app_nil_r.
  - replace (ticks w + 2)%nat with (S (S (ticks w))) by lia.
    destruct (time.Time_Weekday _);
      cbn -[fetches scheduler.nextBCVRunTimeAt time.Time_Sub];
      try (destruct (rates.Fetch (rates.bcvScraper svc)) as [[rate err] sc];
           destruct err; cbn -[fetches scheduler.nextBCVRunTimeAt time.Time_Sub]);
      rewrite <- ?app_assoc, !fetches_app; cbn; rewrite ?app_nil_r; split; reflexivity.
Qed.

(** [nextBCVRunTime] reads the clock once and is [nextBCVRunTimeAt] of
    that reading. *)
Lemma nextBCVRunTime_reads_clock_once (w : World) :
  scheduler.nextBCVRunTime w
  = (scheduler.nextBCVRunTimeAt (nthNow w 0),
     {| clock := clock w; ticks := S (ticks w); trace := trace w |}).
Proof.
  unfold scheduler.nextBCVRunTime, nthNow, time_Now, bind, ret. cbn.
  now rewrite Nat.add_0_r.
Qed.

(** The loop is its turns, one after the other. *)
Lemma bcvDailyJob_loop_turn
  (choice : scheduler.Select) (rest : list scheduler.Select)
  (svc : rates.Service B F) (w : World) :
  scheduler.bcvDailyJob_loop (choice :: rest) svc w =
    let '(continue, svc', w') := scheduler.bcvDailyJob_iteration choice svc w in
    if continue : bool then scheduler.bcvDailyJob_loop rest svc' w' else (svc', w').
Proof.
  cbn [scheduler.bcvDailyJob_loop]. unfold bind at 1.
  destruct (scheduler.bcvDailyJob_iteration choice svc w) as [[continue svc'] w'].
  destruct continue; reflexivity.
Qed.

(** A job whose first [select] takes the stop case calls no scraper and
    leaves the service as it was. *)
Lemma jobs_stopped_at_first_select
  (rest : list scheduler.Select) (svc : rates.Service B F) (w : World) :
  (fetches (trace (snd (scheduler.bcvDailyJob (scheduler.StopClosed :: rest) svc w)))
   = fetches (trace w)
   /\ fst (scheduler.bcvDailyJob (scheduler.StopClosed :: rest) svc w) = svc)
  /\ (fetches (trace (snd (scheduler.binanceJob (scheduler.StopClosed :: rest) svc w)))
      = fetches (trace w)
      /\ fst (scheduler.binanceJob (scheduler.StopClosed :: rest) svc w) = svc).
Proof.
  unfold scheduler.bcvDailyJob, scheduler.binanceJob.
  cbn [scheduler.bcvDailyJob_loop scheduler.binanceJob_loop].
  unfold scheduler.bcvDailyJob_iteration, scheduler.binanceJob_iteration,
    scheduler.nextBCVRunTime, time_Until, log_Println, log_Printf, time_Now,
    bind, emit, ret.
  cbn -[fetches scheduler.nextBCVRunTimeAt time.Time_Sub].
  rewrite <- ?app_assoc, !fetches_app. cbn. rewrite !app_nil_r. auto.
Qed.

End JobProps.

(** A run of the job on a clock that reads Saturday 2024-01-06: should
    the timer fire that day, the job skips the fetch; it is then stopped. *)
Example bcvDailyJob_skips_Saturday :
  let w := {| clock := fun n => {| rd_sec := 1704123000 + 5 * 86400 + Z.of_nat n;
                                   rd_nsec := 0; rd_mono := Z.of_nat n |};
              ticks := 0; trace := [] |} in
  let svc := {| rates.store := rates.NewRateStore;
                rates.bcvScraper := [45.82%float];
                rates.binanceFetcher := [46.31%float] |} in
  let r := scheduler.bcvDailyJob [scheduler.TimerFired; scheduler.StopClosed] svc w in
  fetches (trace (snd r)) = []
  /\ rates.store (fst r) = rates.NewRateStore
  /\ In (EvLog "Scheduler: Skipping BCV scrape (weekend)" []) (trace (snd r)).
Proof. vm_compute. repeat split; try reflexivity. tauto. Qed.

(** A run on the clock of [world0], a Monday: the job wakes, fetches and
    stores the BCV rate, and is then stopped. *)
Example bcvDailyJob_fetches_on_Monday :
  let svc := {| rates.store := rates.NewRateStore;
                rates.bcvScraper := [45.82%float];
                rates.binanceFetcher := [46.31%float] |} in
  let r := scheduler.bcvDailyJob [scheduler.TimerFired; scheduler.StopClosed] svc world0 in
  fetches (trace (snd r)) = [SrcBCV]
  /\ rates.bcv (rates.store (fst r)) = 45.82%float.
Proof. vm_compute. split; reflexivity. Qed.

(** C8. [isWeekday] reads the weekday of [time.Now()] in the zone of the
    process: it has no [In(loc)], which [nextBCVRunTime] has. In a process
    whose zone is UTC, a turn of the loop computes its target on Thursday
    2024-01-04 at 12:00 in Caracas (the run of Friday, 11:30) and its timer
    fires late, on Sunday 2024-01-07 at 21:00 in Caracas, which is Monday
    01:00 in UTC: the job takes the day for a weekday and calls the BCV
    scraper, on a wake day that is a Sunday in the calendar of the job. *)
Lemma bcvDailyJob_fetches_on_Sunday_in_Caracas :
  let w := {| clock := fun n =>
                match n with
                | 0%nat => {| rd_sec := 1704384000; rd_nsec := 0; rd_mono := 0 |}
                | 1%nat => {| rd_sec := 1704384001; rd_nsec := 0; rd_mono := 1000000000 |}
                | _ => {| rd_sec := 1704675600; rd_nsec := 0;
                          rd_mono := 291600000000000 |}
                end;
              ticks := 0; trace := [] |} in
  let svc := {| rates.store := rates.NewRateStore;
                rates.bcvScraper := [45.82%float];
                rates.binanceFetcher := [46.31%float] |} in
  let now := time.Time_In (@nthNow utcZone w 0) scheduler.VET in
  let next := scheduler.nextBCVRunTimeAt (@nthNow utcZone w 0) in
  let wake := @nthNow utcZone w 2 in
  let r := @scheduler.bcvDailyJob_iteration utcZone _ _ _ scheduler.TimerFired svc w in
  (time.Time_Weekday now, time.Time_Hour now, time.Time_Minute now) = (time.Thursday, 12, 0)
  /\ (time.Time_Weekday next, time.Time_Hour next, time.Time_Minute next)
     = (time.Friday, 11, 30)
  /\ (time.Time_Weekday (time.Time_In wake scheduler.VET),
      time.Time_Hour (time.Time_In wake scheduler.VET)) = (time.Sunday, 21)
  /\ (time.Time_Weekday wake, time.Time_Hour wake) = (time.Monday, 1)
  /\ fetches (trace (snd r)) = [SrcBCV]
  /\ rates.bcv (rates.store (snd (fst r))) = 45.82%float.
Proof. vm_compute. repeat split; reflexivity. Qed.

(** ** Time: the calendar, the weekend loop and [nextBCVRunTime] *)

Section TimeProps.
Import time.

(** *** The calendar *)

Lemma year_of_era_bounds (doe : Z) :
  0 <= doe < 146097 ->
  let yoe := (doe - doe / 1460 + doe / 36524 - doe / 146096) / 365 in
  let doy := doe - (365 * yoe + yoe / 4 - yoe / 100) in
  0 <= yoe < 400 /\ 0 <= doy < 366.
Proof.
  intros Hd yoe doy. subst doy yoe.
  Z.to_euclidean_division_equations. lia.
Qed.

Lemma civil_from_days_month (z : Z) : 1 <= snd (fst (civil_from_days z)) <= 12.
Proof.
  unfold civil_from_days.
  pose proof (Z.mod_pos_bound (z + 719468) 146097 ltac:(lia)) as Hdoe.
  set (doe := (z + 719468) mod 146097) in *.
  pose proof (year_of_era_bounds Hdoe) as Hb. cbv zeta in Hb.
  set (yoe := (doe - doe / 1460 + doe / 36524 - doe / 146096) / 365) in *.
  set (doy := doe - (365 * yoe + yoe / 4 - yoe / 100)) in *.
  cbn [fst snd].
  destruct (Z.ltb_spec ((5 * doy + 2) / 153) 10);
    Z.to_euclidean_division_equations; lia.
Qed.

(** The day count of a day's own civil date is that day. *)
Lemma days_from_civil_from_days (z : Z) :
  let '(y, m, d) := civil_from_days z in days_from_civil y m d = z.
Proof.
  unfold civil_from_days, days_from_civil.
  pose proof (Z.mod_pos_bound (z + 719468) 146097 ltac:(lia)) as Hdoe.
  pose proof (Z.div_mod (z + 719468) 146097 ltac:(lia)) as Hz.
  set (era := (z + 719468) / 146097) in *.
  set (doe := (z + 719468) mod 146097) in *.
  pose proof (year_of_era_bounds Hdoe) as Hb. cbv zeta in Hb.
  set (yoe := (doe - doe / 1460 + doe / 36524 - doe / 146096) / 365) in *.
  set (doy := doe - (365 * yoe + yoe / 4 - yoe / 100)) in *.
  set (mp := (5 * doy + 2) / 153).
  assert (Hmp : 0 <= mp < 12) by (subst mp; Z.to_euclidean_division_equations; lia).
  set (m := if mp <? 10 then mp + 3 else mp - 9).
  assert (Hm : (m + 9) mod 12 = mp).
  { subst m. destruct (Z.ltb_spec mp 10).
    - replace (mp + 3 + 9) with (mp + 1 * 12) by lia.
      rewrite Z.mod_add by lia. apply Z.mod_small; lia.
    - replace (mp - 9 + 9) with mp by lia. apply Z.mod_small; lia. }
  assert (Hy : (if m <=? 2 then (if m <=? 2 then yoe + era * 400 + 1 else yoe + era * 400) - 1
                else (if m <=? 2 then yoe + era * 400 + 1 else yoe + era * 400))
               = yoe + era * 400) by (destruct (m <=? 2); lia).
  rewrite Hy, Hm.
  rewrite Z.div_add, Z.mod_add by lia.
  rewrite Z.div_small, Z.mod_small by lia.
  subst doy. lia.
Qed.

(** *** The weekend loop *)

Lemma Time_Add_day (t : Time) :
  nsec t = 0 -> mono t = None ->
  Time_Add t (24 * Hour) = {| sec := sec t + 86400; nsec := 0; mono := None; loc := loc t |}.
Proof.
  intros Hn Hm. unfold Time_Add. rewrite Hn, Hm. reflexivity.
Qed.

Lemma skipWeekend_weekday (t : Time) : scheduler.onWeekend (scheduler.skipWeekend t) = false.
Proof.
  funelim (scheduler.skipWeekend t); assumption.
Qed.

(** The loop only moves [next] forward, by whole days, and not at all
    from a weekday. *)
Lemma skipWeekend_shape (t : Time) :
  nsec t = 0 -> mono t = None ->
  exists k : Z,
    0 <= k
    /\ (scheduler.onWeekend t = false <-> k = 0)
    /\ scheduler.skipWeekend t
       = {| sec := sec t + 86400 * k; nsec := 0; mono := None; loc := loc t |}.
Proof.
  funelim (scheduler.skipWeekend t); intros Hn Hm.
  - rewrite (Time_Add_day next Hn Hm) in *.
    destruct (H eq_refl eq_refl) as (k & Hk & _ & Heq).
    exists (k + 1). cbn [sec loc] in Heq.
    split; [lia|]. split; [split; [congruence | lia]|].
    rewrite Heq. f_equal. lia.
  - exists 0. split; [lia|]. split; [tauto|].
    destruct next as [s n m l]; cbn in *; subst. f_equal. lia.
Qed.

(** *** [nextBCVRunTime] *)

Lemma target_of_today (reading : Time) :
  let now := Time_In reading scheduler.VET in
  Date (Time_Year now) (Time_Month now) (Time_Day now)
       scheduler.targetHour scheduler.targetMinute 0 0 scheduler.VET
  = {| sec := todayTarget (sec reading); nsec := 0; mono := None; loc := scheduler.VET |}.
Proof.
  intros now. unfold Date, Time_Year, Time_Month, Time_Day.
  set (D := localSec now / 86400).
  pose proof (days_from_civil_from_days D) as Hrt.
  pose proof (civil_from_days_month D) as Hm.
  destruct (civil_from_days D) as [[y m] d]. cbn [fst snd] in *.
  replace ((m - 1) / 12) with 0 by (symmetry; apply Z.div_small; lia).
  replace ((m - 1) mod 12 + 1) with m by (rewrite Z.mod_small; lia).
  replace (y + 0) with y by lia. rewrite Hrt.
  f_equal. subst D now. unfold todayTarget, localSec. cbn.
  replace (sec reading + -14400) with (sec reading - 14400) by lia. lia.
Qed.

Lemma nextBCVRunTimeAt_shape (reading : Time) :
  let now := Time_In reading scheduler.VET in
  let target := {| sec := todayTarget (sec reading); nsec := 0; mono := None;
                   loc := scheduler.VET |} in
  let next1 := if Time_After now target then Time_Add target (24 * Hour) else target in
  exists k : Z,
    0 <= k
    /\ (scheduler.onWeekend next1 = false <-> k = 0)
    /\ scheduler.nextBCVRunTimeAt reading
       = {| sec := sec next1 + 86400 * k; nsec := 0; mono := None; loc := scheduler.VET |}
    /\ sec next1 = todayTarget (sec reading) + (if Time_After now target then 86400 else 0).
Proof.
  intros now target next1.
  unfold scheduler.nextBCVRunTimeAt. cbv zeta.
  rewrite (target_of_today reading). fold now target. fold next1.
  assert (H1 : nsec next1 = 0 /\ mono next1 = None /\ loc next1 = scheduler.VET
               /\ sec next1 = todayTarget (sec reading)
                              + (if Time_After now target then 86400 else 0)).
  { subst next1. destruct (Time_After now target).
    - rewrite Time_Add_day by reflexivity. cbn. auto.
    - cbn. repeat split; lia. }
  destruct H1 as (Hn & Hm & Hl & Hs).
  destruct (skipWeekend_shape next1 Hn Hm) as (k & Hk & Hk0 & Heq).
  exists k. rewrite Heq, Hl. auto.
Qed.

Lemma weekday_not_weekend (t : Time) :
  scheduler.onWeekend t = false ->
  In (Time_Weekday t) [Monday; Tuesday; Wednesday; Thursday; Friday].
Proof.
  unfold scheduler.onWeekend. destruct (Time_Weekday t); cbn; intros Hw;
    try discriminate; auto 6.
Qed.

(** C4. Whatever the clock reads, the next run is at hour 11, minute 30 in
    the UTC-4 zone, on a Monday to Friday there, and it is a function of
    the instant read alone: two readings of the same instant, in whatever
    location and with whatever monotonic part, give the same next run. *)
Theorem nextBCVRunTime_weekday_at_target (reading : Time) :
  let next := scheduler.nextBCVRunTimeAt reading in
  Time_Hour (Time_In next scheduler.VET) = 11
  /\ Time_Minute (Time_In next scheduler.VET) = 30
  /\ In (Time_Weekday (Time_In next scheduler.VET))
        [Monday; Tuesday; Wednesday; Thursday; Friday]
  /\ (forall reading' : Time,
        sec reading' = sec reading -> nsec reading' = nsec reading ->
        scheduler.nextBCVRunTimeAt reading' = next).
Proof.
  intros next.
  assert (Hin : Time_In next scheduler.VET = next).
  { subst next. destruct (nextBCVRunTimeAt_shape reading) as (k & _ & _ & -> & _).
    reflexivity. }
  rewrite Hin. repeat apply conj.
  - subst next. destruct (nextBCVRunTimeAt_shape reading) as (k & Hk & _ & -> & Hs).
    unfold Time_Hour, localSec. cbn [sec loc offset scheduler.VET FixedZone].
    change (-4 * 60 * 60) with (-14400). rewrite Hs. unfold todayTarget.
    destruct (Time_After _ _); Z.to_euclidean_division_equations; lia.
  - subst next. destruct (nextBCVRunTimeAt_shape reading) as (k & Hk & _ & -> & Hs).
    unfold Time_Minute, localSec. cbn [sec loc offset scheduler.VET FixedZone].
    change (-4 * 60 * 60) with (-14400). rewrite Hs. unfold todayTarget.
    destruct (Time_After _ _); Z.to_euclidean_division_equations; lia.
  - apply weekday_not_weekend. apply skipWeekend_weekday.
  - intros reading' Hs Hn. subst next. unfold scheduler.nextBCVRunTimeAt.
    replace (Time_In reading' scheduler.VET) with (Time_In reading scheduler.VET)
      by (unfold Time_In; now rewrite Hs, Hn).
    reflexivity.
Qed.

(** C5, as the code has it. The next run is never before the reading it
    is computed from, and it is strictly after it unless the reading is
    exactly 11:30:00.000000000 (UTC-4) on a Monday to Friday: then the next
    run is that very instant. *)
Theorem nextBCVRunTime_not_before_now (reading : Time) :
  valid reading ->
  let next := scheduler.nextBCVRunTimeAt reading in
  Time_After reading next = false
  /\ Time_After next reading = negb (atTargetInstant reading)
  /\ (atTargetInstant reading = true ->
      sec next = sec reading /\ nsec next = nsec reading).
Proof.
  intros Hv next. unfold valid in Hv.
  destruct (nextBCVRunTimeAt_shape reading) as (k & Hk & Hk0 & Heq & Hs).
  cbv zeta in Hk0, Heq, Hs. fold next in Heq.
  set (now := Time_In reading scheduler.VET) in *.
  set (target := {| sec := todayTarget (sec reading); nsec := 0; mono := None;
                    loc := scheduler.VET |}) in *.
  set (next1 := if Time_After now target then Time_Add target (24 * Hour) else target) in *.
  assert (Hday : todayTarget (sec reading) - 41400 <= sec reading
                 < todayTarget (sec reading) + 45000).
  { unfold todayTarget. Z.to_euclidean_division_equations. lia. }
  assert (Hweek : Time_After now target = false ->
                  scheduler.onWeekend next1 = scheduler.onWeekend now).
  { intros Ha. subst next1. rewrite Ha.
    unfold scheduler.onWeekend, Time_Weekday, localSec. subst now target.
    cbn [sec loc Time_In offset scheduler.VET FixedZone].
    change (-4 * 60 * 60) with (-14400).
    replace ((todayTarget (sec reading) + -14400) / 86400)
      with ((sec reading + -14400) / 86400); [reflexivity|].
    unfold todayTarget. Z.to_euclidean_division_equations. lia. }
  assert (Hmod : localSec now mod 86400 = 41400 <-> sec reading = todayTarget (sec reading)).
  { unfold localSec, todayTarget. subst now. cbn [sec loc Time_In offset scheduler.VET FixedZone].
    change (-4 * 60 * 60) with (-14400).
    Z.to_euclidean_division_equations. lia. }
  assert (Hafter : Time_After now target
                   = (todayTarget (sec reading) <? sec reading)
                     || ((sec reading =? todayTarget (sec reading)) && (0 <? nsec reading))).
  { reflexivity. }
  unfold atTargetInstant. fold now.
  assert (HA1 : Time_After reading next
                = (sec next <? sec reading)
                  || ((sec reading =? sec next) && (nsec next <? nsec reading))).
  { unfold Time_After. rewrite Heq. cbn [mono]. destruct (mono reading); reflexivity. }
  assert (HA2 : Time_After next reading
                = (sec reading <? sec next)
                  || ((sec next =? sec reading) && (nsec reading <? nsec next))).
  { unfold Time_After. rewrite Heq. cbn [mono]. reflexivity. }
  rewrite HA1, HA2. rewrite Heq. cbn [sec nsec]. rewrite Hs.
  pose proof Hafter as Ha.
  destruct (Time_After now target); symmetry in Ha.
  - (* today's target is past: the run is tomorrow or later *)
    assert (Hnot : (localSec now mod 86400 =? 41400) && (nsec reading =? 0) = false).
    { destruct (Z.eqb_spec (localSec now mod 86400) 41400) as [E|E]; [|reflexivity].
      apply Hmod in E. destruct (Z.eqb_spec (nsec reading) 0); [|reflexivity]. lia. }
    rewrite Hnot. cbn [andb negb].
    repeat apply conj; [lia | lia | discriminate].
  - specialize (Hweek eq_refl).
    apply orb_false_iff in Ha. destruct Ha as [Ha1 Ha2].
    apply Z.ltb_ge in Ha1.
    destruct (Z.eqb_spec (sec reading) (todayTarget (sec reading))) as [E|E].
    + cbn [andb] in Ha2. apply Z.ltb_ge in Ha2.
      assert (Hn0 : nsec reading = 0) by lia.
      rewrite (proj2 Hmod E), Hn0, !Z.eqb_refl. cbn [andb].
      destruct (scheduler.onWeekend now) eqn:Hw; cbn [negb].
      * (* a weekend day: the run moves on *)
        assert (k <> 0) by (intros Hz; apply Hk0 in Hz; congruence).
        repeat apply conj; [lia | lia | discriminate].
      * rewrite (proj1 Hk0 Hweek). repeat apply conj; [lia | lia | intros _; lia].
    + assert (Hne : (localSec now mod 86400 =? 41400) = false).
      { apply Z.eqb_neq. intros E'. apply Hmod in E'. contradiction. }
      rewrite Hne. cbn [andb negb].
      repeat apply conj; [lia | lia | discriminate].
Qed.

End TimeProps.

(** C5, as the specification states it, fails. On Monday 2024-01-01 at
    exactly 11:30:00 in Caracas the reading is not after today's target,
    the target is kept, and the next run is the instant of the reading: it
    is not strictly later. *)
Lemma nextBCVRunTime_equals_now_at_target :
  let reading := instant 1704123000 in
  let now := time.Time_In reading scheduler.VET in
  (time.Time_Weekday now = time.Monday
   /\ time.Time_Hour now = 11 /\ time.Time_Minute now = 30
   /\ time.localSec now mod 60 = 0 /\ time.nsec now = 0)
  /\ time.sec (scheduler.nextBCVRunTimeAt reading) = time.sec reading
  /\ time.nsec (scheduler.nextBCVRunTimeAt reading) = time.nsec reading
  /\ time.Time_After (scheduler.nextBCVRunTimeAt reading) reading = false.
Proof. vm_compute. repeat split; reflexivity. Qed.

(** One nanosecond later the target is past and the next run is on Tuesday. *)
Example nextBCVRunTime_just_after_target :
  let reading := {| time.sec := 1704123000; time.nsec := 1; time.mono := Some 0;
                    time.loc := time.UTC |} in
  time.sec (scheduler.nextBCVRunTimeAt reading) = 1704123000 + 86400
  /\ time.Time_Weekday (scheduler.nextBCVRunTimeAt reading) = time.Tuesday.
Proof. vm_compute. split; reflexivity. Qed.

(** Friday 2024-01-05 at 12:00 in Caracas: the next run is Monday
    2024-01-08 at 11:30. *)
Lemma nextBCVRunTime_not_before_now_witness :
  let reading := instant (1704123000 + 4 * 86400 + 1800) in
  time.valid reading
  /\ time.Time_After reading (scheduler.nextBCVRunTimeAt reading) = false
  /\ time.Time_After (scheduler.nextBCVRunTimeAt reading) reading
     = negb (atTargetInstant reading)
  /\ (atTargetInstant reading = true ->
      time.sec (scheduler.nextBCVRunTimeAt reading) = time.sec reading
      /\ time.nsec (scheduler.nextBCVRunTimeAt reading) = time.nsec reading).
Proof.
  intros reading.
  assert (Hv : time.valid reading) by (unfold time.valid; simpl; lia).
  split; [exact Hv|]. exact (@nextBCVRunTime_not_before_now reading Hv).
Defined.

(** Scenario: now = Friday 12:00 (UTC-4) gives the following Monday, 11:30. *)
Example next_run_from_Friday_noon :
  let reading := instant (1704123000 + 4 * 86400 + 1800) in
  let now := time.Time_In reading scheduler.VET in
  let next := scheduler.nextBCVRunTimeAt reading in
  (time.Time_Weekday now, time.Time_Hour now, time.Time_Minute now)
  = (time.Friday, 12, 0)
  /\ (time.Time_Year now, time.Time_Month now, time.Time_Day now) = (2024, 1, 5)
  /\ (time.Time_Weekday next, time.Time_Hour next, time.Time_Minute next)
     = (time.Monday, 11, 30)
  /\ (time.Time_Year next, time.Time_Month next, time.Time_Day next) = (2024, 1, 8).
Proof. vm_compute. repeat split; reflexivity. Qed.

(** Scenario: now = Monday 09:00 (UTC-4) gives the same Monday, 11:30. *)
Example next_run_from_Monday_morning :
  let reading := instant (1704123000 - 9000) in
  let now := time.Time_In reading scheduler.VET in
  let next := scheduler.nextBCVRunTimeAt reading in
  (time.Time_Weekday now, time.Time_Hour now, time.Time_Minute now)
  = (time.Monday, 9, 0)
  /\ (time.Time_Year next, time.Time_Month next, time.Time_Day next)
     = (time.Time_Year now, time.Time_Month now, time.Time_Day now)
  /\ (time.Time_Weekday next, time.Time_Hour next, time.Time_Minute next)
     = (time.Monday, 11, 30).
Proof. vm_compute. repeat split; reflexivity. Qed.

(** ** The order of floats *)

Lemma SFltb_asym (a b : spec_float) : SFltb a b = true -> SFltb b a = false.
Proof.
  unfold SFltb, SFcompare.
  destruct a as [sa | sa | | sa ma ea], b as [sb | sb | | sb mb eb];
    try destruct sa; try destruct sb; cbn; try congruence;
    fold (Pos.compare ma mb); fold (Pos.compare mb ma);
    destruct (Z.compare_spec ea eb), (Z.compare_spec eb ea);
    try lia; cbn; try congruence;
    destruct (Pos.compare_spec ma mb), (Pos.compare_spec mb ma);
    cbn; try congruence; lia.
Qed.

Lemma SFltb_trans (a b c : spec_float) :
  SFltb a b = true -> SFltb b c = true -> SFltb a c = true.
Proof.
  unfold SFltb, SFcompare.
  destruct a as [sa | sa | | sa ma ea], b as [sb | sb | | sb mb eb],
           c as [sc | sc | | sc mc ec];
    try destruct sa; try destruct sb; try destruct sc; cbn; try congruence;
    fold (Pos.compare ma mb); fold (Pos.compare mb mc); fold (Pos.compare ma mc);
    destruct (Z.compare_spec ea eb), (Z.compare_spec eb ec), (Z.compare_spec ea ec);
    try lia; cbn; try congruence;
    destruct (Pos.compare_spec ma mb), (Pos.compare_spec mb mc), (Pos.compare_spec ma mc);
    cbn; try congruence; lia.
Qed.

Lemma float_lt_asym (x y : float) : (x <? y)%float = true -> (y <? x)%float = false.
Proof. rewrite !FloatAxioms.ltb_spec. apply SFltb_asym. Qed.

Lemma float_lt_trans (x y z : float) :
  (x <? y)%float = true -> (y <? z)%float = true -> (x <? z)%float = true.
Proof. rewrite !FloatAxioms.ltb_spec. apply SFltb_trans. Qed.

Lemma float_lt_irrefl (x : float) : (x <? x)%float = false.
Proof.
  destruct (x <? x)%float eqn:E; [|reflexivity].
  now rewrite (float_lt_asym E) in E.
Qed.

(** ** [scraper.median] *)

Section MedianProps.
Import scraper.
Local Open Scope nat_scope.

Lemma put_length (l : list float) (i : nat) (x : float) : List.length (put l i x) = List.length l.
Proof.
  revert i. induction l as [|h t IH]; intros [|i]; cbn; auto.
Qed.

Lemma at_put_same (l : list float) (i : nat) (x : float) :
  i < List.length l -> at_ (put l i x) i = x.
Proof.
  revert i. induction l as [|h t IH]; intros [|i] Hi; cbn in *; try lia; auto.
  apply IH. lia.
Qed.

Lemma at_put_other (l : list float) (i k : nat) (x : float) :
  k <> i -> at_ (put l i x) k = at_ l k.
Proof.
  revert i k. induction l as [|h t IH]; intros [|i] [|k] Hk; cbn; auto; try lia.
  apply IH. lia.
Qed.

Lemma put_head_Permutation (t : list float) (j : nat) (h : float) :
  j < List.length t -> Permutation (at_ t j :: put t j h) (h :: t).
Proof.
  revert j. induction t as [|a t IH]; intros [|j] Hj; cbn in *; try lia.
  - apply perm_swap.
  - unfold at_ in *. cbn.
    eapply perm_trans; [apply perm_swap|].
    eapply perm_trans; [apply perm_skip, IH; lia|]. apply perm_swap.
Qed.

(** What the exchange of [sorted[i]] and [sorted[j]] leaves. *)
Definition exchanged (l : list float) (i j : nat) : list float :=
  put (put l i (at_ l j)) j (at_ l i).

Lemma exchanged_Permutation (l : list float) (i j : nat) :
  i < j < List.length l -> Permutation (exchanged l i j) l.
Proof.
  unfold exchanged. revert i j. induction l as [|h t IH]; intros i j Hij; cbn in *; [lia|].
  destruct i as [|i], j as [|j]; try lia.
  - cbn. apply put_head_Permutation. lia.
  - cbn. apply perm_skip. apply IH. lia.
Qed.

Lemma exchanged_at (l : list float) (i j k : nat) :
  i < j < List.length l ->
  at_ (exchanged l i j) k
  = if Nat.eqb k i then at_ l j else if Nat.eqb k j then at_ l i else at_ l k.
Proof.
  intros Hij. unfold exchanged.
  destruct (Nat.eqb_spec k j) as [->|Hkj].
  - rewrite at_put_same by (rewrite put_length; lia).
    destruct (Nat.eqb_spec j i); [lia | reflexivity].
  - rewrite at_put_other by assumption.
    destruct (Nat.eqb_spec k i) as [->|Hki].
    + apply at_put_same. lia.
    + now apply at_put_other.
Qed.

(** No element from position [p] on is smaller than the one at [p], up to
    (not including) position [stop]. *)
Definition leastAt (l : list float) (p stop : nat) : Prop :=
  forall q, p < q < stop -> (at_ l q <? at_ l p)%float = false.

Lemma sortInner_spec (todo i j : nat) (l : list float) :
  i < j -> j + todo = List.length l ->
  (forall p, p < i -> leastAt l p (List.length l)) ->
  leastAt l i j ->
  let l' := sortInner todo i j l in
  Permutation l' l
  /\ (forall p, p < i -> leastAt l' p (List.length l'))
  /\ leastAt l' i (List.length l').
Proof.
  revert j l. induction todo as [|todo IH]; intros j l Hij Hn HG HL; cbn [sortInner].
  - cbv zeta. replace (List.length l) with j by lia. split; [apply Permutation_refl|].
    split; [|exact HL]. replace j with (List.length l) by lia. exact HG.
  - cbv zeta.
    destruct (at_ l j <? at_ l i)%float eqn:Hc.
    + fold (exchanged l i j).
      assert (Hr : i < j < List.length l) by lia.
      pose proof (exchanged_Permutation l Hr) as HP.
      assert (Hlen : List.length (exchanged l i j) = List.length l)
        by (apply Permutation_length, HP).
      destruct (IH (S j) (exchanged l i j)) as (HP' & HG' & HL'); try lia.
      * intros p Hp q Hq. rewrite Hlen in Hq.
        rewrite !exchanged_at by assumption.
        destruct (Nat.eqb_spec p i); [lia|]. destruct (Nat.eqb_spec p j); [lia|].
        destruct (Nat.eqb_spec q i); [apply (HG p Hp); lia|].
        destruct (Nat.eqb_spec q j); apply (HG p Hp); lia.
      * intros q Hq. rewrite !exchanged_at by assumption.
        rewrite Nat.eqb_refl.
        destruct (Nat.eqb_spec q i); [lia|].
        destruct (Nat.eqb_spec q j) as [->|Hqj].
        -- now apply float_lt_asym.
        -- destruct (at_ l q <? at_ l j)%float eqn:Hlt; [|reflexivity].
           rewrite <- (HL q ltac:(lia)). symmetry.
           now apply float_lt_trans with (y := at_ l j).
      * split; [eapply perm_trans; eassumption|]. split; assumption.
    + apply IH; try lia; try assumption.
      intros q Hq. destruct (Nat.eq_dec q j) as [->|Hqj]; [assumption|].
      apply HL. lia.
Qed.

Lemma sortOuter_spec (todo i : nat) (l : list float) :
  i + S todo = List.length l \/ (todo = 0 /\ List.length l <= i) ->
  (forall p, p < i -> leastAt l p (List.length l)) ->
  let l' := sortOuter todo i (List.length l) l in
  Permutation l' l /\ (forall p, leastAt l' p (List.length l')).
Proof.
  revert i l. induction todo as [|todo IH]; intros i l Hn HG; cbn [sortOuter]; cbv zeta.
  - split; [apply Permutation_refl|].
    intros p q Hq. destruct (Nat.lt_ge_cases p i) as [Hp|Hp]; [now apply HG|]. lia.
  - destruct Hn as [Hn|[Hn _]]; [|discriminate].
    pose proof (@sortInner_spec (List.length l - S i) i (S i) l ltac:(lia) ltac:(lia) HG) as HI.
    cbv zeta in HI. destruct HI as (HP & HG' & HL'); [intros q Hq; lia|].
    set (l1 := sortInner (List.length l - S i) i (S i) l) in *.
    assert (Hlen : List.length l1 = List.length l) by (apply Permutation_length, HP).
    rewrite <- Hlen.
    destruct (IH (S i) l1) as (HP2 & HG2).
    + left. lia.
    + intros p Hp. destruct (Nat.eq_dec p i) as [->|]; [exact HL'|]. apply HG'. lia.
    + split; [eapply perm_trans; eassumption | exact HG2].
Qed.

(** The loops of [median] leave a rearrangement of the prices in which no
    element is greater than a later one. *)
Lemma sortedCopy_spec (prices : list float) :
  Permutation (sortedCopy prices) prices
  /\ forall p q, p < q < List.length prices ->
       (at_ (sortedCopy prices) q <? at_ (sortedCopy prices) p)%float = false.
Proof.
  unfold sortedCopy. cbv zeta.
  destruct (@sortOuter_spec (List.length prices - 1) 0 prices) as (HP & HG).
  - destruct prices; cbn; [right; split; lia | left; lia].
  - intros p Hp. lia.
  - split; [exact HP|]. intros p q Hq. apply (HG p).
    rewrite (Permutation_length HP). exact Hq.
Qed.

Lemma filter_length_Permutation (f : float -> bool) (l l' : list float) :
  Permutation l l' -> List.length (filter f l) = List.length (filter f l').
Proof.
  induction 1 as [| x l l' _ IH | x y l | l l' l'' _ IH1 _ IH2]; cbn.
  - reflexivity.
  - destruct (f x); cbn; now rewrite IH.
  - destruct (f x), (f y); reflexivity.
  - now rewrite IH1.
Qed.

Lemma filter_length_from (f : float -> bool) (l : list float) (k : nat) :
  (forall q, k <= q < List.length l -> f (at_ l q) = false) ->
  List.length (filter f l) <= k.
Proof.
  revert k. induction l as [|h t IH]; intros k Hk; cbn; [lia|].
  destruct k as [|k].
  - pose proof (Hk 0 ltac:(cbn; lia)) as H0. unfold at_ in H0. cbn in H0. rewrite H0.
    apply (IH 0). intros q Hq. apply (Hk (S q)). cbn. lia.
  - assert (List.length (filter f t) <= k).
    { apply IH. intros q Hq. apply (Hk (S q)). cbn. lia. }
    destruct (f h); cbn; lia.
Qed.

Lemma filter_length_upto (f : float -> bool) (l : list float) (k : nat) :
  (forall q, q < k -> q < List.length l -> f (at_ l q) = false) ->
  List.length (filter f l) <= List.length l - k.
Proof.
  revert k. induction l as [|h t IH]; intros k Hk; cbn [filter List.length]; [lia|].
  destruct k as [|k].
  - pose proof (filter_length_from f t (k := List.length t) ltac:(intros; lia)).
    destruct (f h); cbn; lia.
  - pose proof (Hk 0 ltac:(lia) ltac:(cbn; lia)) as H0. unfold at_ in H0. cbn in H0.
    rewrite H0.
    replace (S (List.length t) - S k) with (List.length t - k) by lia.
    apply IH. intros q Hq Hq'. apply (Hk (S q)); cbn; lia.
Qed.

(** X1. For a non-empty slice, [median] returns the middle element of the
    rearranged prices when their number is odd and the mean of the two
    middle ones when it is even. Those two (one and the same when the
    number is odd) are prices of the slice, the first is not greater than
    the second, fewer than half of the prices are smaller than the first
    and fewer than half are greater than the second. This holds for every
    float, NaN included. *)
Theorem median_between_halves (prices : list float) :
  prices <> [] ->
  exists lo hi : float,
    In lo prices /\ In hi prices
    /\ (hi <? lo)%float = false
    /\ median prices
       = (if Nat.eqb (List.length prices mod 2) 0 then ((lo + hi) / 2)%float else hi)
    /\ (List.length prices mod 2 <> 0 -> lo = hi)
    /\ 2 * List.length (filter (fun x => (x <? lo)%float) prices) < List.length prices
    /\ 2 * List.length (filter (fun x => (hi <? x)%float) prices) < List.length prices.
Proof.
  intros Hne.
  destruct (sortedCopy_spec prices) as (HP & Hord).
  pose proof (Permutation_length HP) as Hlen.
  set (s := sortedCopy prices) in *. set (n := List.length prices) in *.
  assert (Hn : 0 < n) by (subst n; destruct prices; cbn; [congruence | lia]).
  assert (Hin : forall k, k < n -> In (at_ s k) prices).
  { intros k Hk. apply (Permutation_in _ HP). apply nth_In. lia. }
  assert (Hlow : forall k, k < n ->
            List.length (filter (fun x => (x <? at_ s k)%float) prices) <= k).
  { intros k Hk. rewrite <- (filter_length_Permutation _ HP).
    apply filter_length_from. intros q Hq.
    destruct (Nat.eq_dec q k) as [->|]; [apply float_lt_irrefl|].
    apply Hord. lia. }
  assert (Hhigh : forall k, k < n ->
            List.length (filter (fun x => (at_ s k <? x)%float) prices) <= n - S k).
  { intros k Hk. rewrite <- (filter_length_Permutation _ HP).
    pose proof (@filter_length_upto (fun x => (at_ s k <? x)%float) s (S k)) as Hb.
    rewrite Hlen in Hb. apply Hb. intros q Hq Hq'.
    destruct (Nat.eq_dec q k) as [->|]; [apply float_lt_irrefl|].
    apply Hord. lia. }
  unfold median. fold n. fold s.
  destruct (Nat.eqb_spec n 0) as [|_]; [lia|].
  pose proof (Nat.div_mod_eq n 2) as Hdm.
  pose proof (Nat.mod_upper_bound n 2 ltac:(lia)) as Hm.
  destruct (Nat.eqb_spec (n mod 2) 0) as [Heven|Hodd].
  - exists (at_ s (n / 2 - 1)), (at_ s (n / 2)).
    split; [apply Hin; lia|]. split; [apply Hin; lia|].
    split; [apply Hord; lia|]. split; [reflexivity|]. split; [lia|].
    pose proof (Hlow (n / 2 - 1) ltac:(lia)). pose proof (Hhigh (n / 2) ltac:(lia)).
    lia.
  - exists (at_ s (n / 2)), (at_ s (n / 2)).
    split; [apply Hin; lia|]. split; [apply Hin; lia|].
    split; [apply float_lt_irrefl|]. split; [reflexivity|]. split; [reflexivity|].
    pose proof (Hlow (n / 2) ltac:(lia)). pose proof (Hhigh (n / 2) ltac:(lia)).
    lia.
Qed.

End MedianProps.

Lemma median_between_halves_witness :
  let prices := [46.5; 45.9; 47.25; 46.1]%float in
  prices <> []
  /\ scraper.median prices = 46.3%float
  /\ exists lo hi : float,
       In lo prices /\ In hi prices
       /\ (hi <? lo)%float = false
       /\ scraper.median prices
          = (if Nat.eqb (List.length prices mod 2) 0 then ((lo + hi) / 2)%float else hi)
       /\ (List.length prices mod 2 <> 0 -> lo = hi)%nat
       /\ (2 * List.length (filter (fun x => (x <? lo)%float) prices)
           < List.length prices)%nat
       /\ (2 * List.length (filter (fun x => (hi <? x)%float) prices)
           < List.length prices)%nat.
Proof.
  intros prices.
  assert (Hne : prices <> []) by discriminate.
  split; [exact Hne|]. split; [vm_compute; reflexivity|].
  exact (median_between_halves Hne).
Defined.

(** An empty slice has the median 0. *)
Example median_of_nothing : scraper.median [] = 0%float.
Proof. reflexivity. Qed.

(** ** [scraper.parseVESRate] *)

Section ParseProps.
Import scraper.
Local Open Scope nat_scope.

Lemma isRateChar_code (c : ascii) :
  isRateChar c = true -> 44 <= nat_of_ascii c <= 57.
Proof.
  unfold isRateChar, isDigit. intros Hc.
  apply orb_true_iff in Hc. destruct Hc as [Hc|Hc].
  - apply orb_true_iff in Hc. destruct Hc as [Hc|Hc].
    + apply andb_true_iff in Hc. destruct Hc as [H1 H2].
      apply Nat.leb_le in H1, H2. lia.
    + apply Ascii.eqb_eq in Hc. subst c. cbn. lia.
  - apply Ascii.eqb_eq in Hc. subst c. cbn. lia.
Qed.

Lemma not_isRateChar (c : ascii) :
  nat_of_ascii c < 44 \/ 57 < nat_of_ascii c -> isRateChar c = false.
Proof.
  intros Hc. destruct (isRateChar c) eqn:E; [|reflexivity].
  apply isRateChar_code in E. lia.
Qed.

Lemma asciiSpace_code (n : nat) : asciiSpace n = true -> n < 44.
Proof.
  unfold asciiSpace. intros Hn. apply orb_true_iff in Hn. destruct Hn as [Hn|Hn].
  - apply andb_true_iff in Hn. destruct Hn as [_ Hn]. apply Nat.leb_le in Hn. lia.
  - apply Nat.eqb_eq in Hn. lia.
Qed.

Lemma generalSpace_code (n : nat) : generalSpace n = true -> 57 < n.
Proof.
  unfold generalSpace. intros Hn.
  repeat (apply orb_true_iff in Hn; destruct Hn as [Hn|Hn]);
    try (apply Nat.eqb_eq in Hn; lia).
  apply andb_true_iff in Hn. destruct Hn as [Hn _]. apply Nat.leb_le in Hn. lia.
Qed.

Ltac codes :=
  repeat match goal with
    | H : (_ || _)%bool = true |- _ => apply orb_true_iff in H; destruct H as [H|H]
    | H : (_ && _)%bool = true |- _ => apply andb_true_iff in H; destruct H
    | H : (_ =? _) = true |- _ => apply Nat.eqb_eq in H
    | H : asciiSpace _ = true |- _ => apply asciiSpace_code in H
    | H : generalSpace _ = true |- _ => apply generalSpace_code in H
    end.

(** The bytes of a white space rune are no digits, commas or dots. *)
Lemma spaceAtStart_not_rate (s : bytes) :
  removeNonRate (skipn (spaceAtStart s) s) = removeNonRate s.
Proof.
  unfold spaceAtStart, removeNonRate.
  destruct s as [|c1 [|c2 [|c3 s]]]; cbn [firstn map]; try reflexivity.
  - destruct (asciiSpace (nat_of_ascii c1)) eqn:H1; [|reflexivity].
    cbn. rewrite not_isRateChar; [reflexivity | codes; lia].
  - destruct (asciiSpace (nat_of_ascii c1)) eqn:H1.
    { cbn [skipn filter]. rewrite (not_isRateChar c1); [reflexivity | codes; lia]. }
    destruct ((nat_of_ascii c1 =? 194) && _)%bool eqn:H2; [|reflexivity].
    cbn [skipn filter].
    rewrite (not_isRateChar c1), (not_isRateChar c2); [reflexivity | |];
      codes; lia.
  - destruct (asciiSpace (nat_of_ascii c1)) eqn:H1.
    { cbn [skipn filter]. rewrite (not_isRateChar c1); [reflexivity | codes; lia]. }
    destruct ((nat_of_ascii c1 =? 194) && _)%bool eqn:H2.
    { cbn [skipn filter].
      rewrite (not_isRateChar c1), (not_isRateChar c2); [reflexivity | |];
        codes; lia. }
    match goal with |- context [if ?b then 3 else 0] => destruct b eqn:H3 end;
      [|reflexivity].
    cbn [skipn filter].
    rewrite (not_isRateChar c1), (not_isRateChar c2), (not_isRateChar c3);
      [reflexivity | | |]; codes; lia.
Qed.

Lemma spaceAtEnd_not_rate (s : bytes) :
  removeNonRate (skipn (spaceAtEnd s) s) = removeNonRate s.
Proof.
  unfold spaceAtEnd, removeNonRate.
  destruct s as [|c1 [|c2 [|c3 s]]]; cbn [firstn map]; try reflexivity.
  - destruct (asciiSpace (nat_of_ascii c1)) eqn:H1; [|reflexivity].
    cbn. rewrite not_isRateChar; [reflexivity | codes; lia].
  - destruct (asciiSpace (nat_of_ascii c1)) eqn:H1.
    { cbn [skipn filter]. rewrite (not_isRateChar c1); [reflexivity | codes; lia]. }
    destruct ((nat_of_ascii c2 =? 194) && _)%bool eqn:H2; [|reflexivity].
    cbn [skipn filter].
    rewrite (not_isRateChar c1), (not_isRateChar c2); [reflexivity | |];
      codes; lia.
  - destruct (asciiSpace (nat_of_ascii c1)) eqn:H1.
    { cbn [skipn filter]. rewrite (not_isRateChar c1); [reflexivity | codes; lia]. }
    destruct ((nat_of_ascii c2 =? 194) && _)%bool eqn:H2.
    { cbn [skipn filter].
      rewrite (not_isRateChar c1), (not_isRateChar c2); [reflexivity | |];
        codes; lia. }
    match goal with |- context [if ?b then 3 else 0] => destruct b eqn:H3 end;
      [|reflexivity].
    cbn [skipn filter].
    rewrite (not_isRateChar c1), (not_isRateChar c2), (not_isRateChar c3);
      [reflexivity | | |]; codes; lia.
Qed.

Lemma dropRunes_not_rate (width : bytes -> nat) (fuel : nat) (s : bytes) :
  (forall s, removeNonRate (skipn (width s) s) = removeNonRate s) ->
  removeNonRate (dropRunes width fuel s) = removeNonRate s.
Proof.
  intros Hw. revert s. induction fuel as [|fuel IH]; intros s; cbn [dropRunes];
    [reflexivity|].
  destruct (width s) eqn:E; [reflexivity|].
  rewrite IH, <- E. apply Hw.
Qed.

Lemma removeNonRate_rev (s : bytes) : removeNonRate (rev s) = rev (removeNonRate s).
Proof.
  unfold removeNonRate. induction s as [|c s IH]; cbn; [reflexivity|].
  rewrite filter_app, IH. cbn. destruct (isRateChar c); cbn; [reflexivity|].
  now rewrite app_nil_r.
Qed.

(** Trimming white space removes nothing that the cleaning would keep. *)
Lemma TrimSpace_not_rate (s : bytes) : removeNonRate (TrimSpace s) = removeNonRate s.
Proof.
  unfold TrimSpace. cbv zeta.
  rewrite removeNonRate_rev, dropRunes_not_rate by apply spaceAtEnd_not_rate.
  rewrite removeNonRate_rev, rev_involutive.
  apply dropRunes_not_rate, spaceAtStart_not_rate.
Qed.

Lemma splitDots_not_nil (s : bytes) : splitDots s <> [].
Proof.
  destruct s as [|c s]; cbn; [discriminate|].
  destruct (Ascii.eqb c dot); [discriminate|]. destruct (splitDots s); discriminate.
Qed.

Lemma splitDots_app (a b : bytes) :
  splitDots (a ++ dot :: b) = splitDots a ++ splitDots b.
Proof.
  induction a as [|c a IH]; cbn [app splitDots].
  - rewrite Ascii.eqb_refl. reflexivity.
  - rewrite IH. destruct (Ascii.eqb c dot); [reflexivity|].
    pose proof (splitDots_not_nil a). destruct (splitDots a); [congruence | reflexivity].
Qed.

Definition noDot (s : bytes) : Prop := forall c, In c s -> Ascii.eqb c dot = false.

Lemma splitDots_noDot (s : bytes) : noDot s -> splitDots s = [s].
Proof.
  unfold noDot. induction s as [|c s IH]; intros Hs; cbn; [reflexivity|].
  rewrite (Hs c) by (now left). rewrite IH; [reflexivity|].
  intros d Hd. apply Hs. now right.
Qed.

Lemma concat_splitDots (s : bytes) :
  joinParts (splitDots s) = filter (fun c => negb (Ascii.eqb c dot)) s.
Proof.
  unfold joinParts. induction s as [|c s IH]; cbn [splitDots filter]; [reflexivity|].
  destruct (Ascii.eqb c dot); cbn [negb List.concat app]; [exact IH|].
  pose proof (splitDots_not_nil s). destruct (splitDots s) as [|p ps]; [congruence|].
  cbn in *. now rewrite <- IH.
Qed.

Lemma splitDots_one_or_more (s : bytes) :
  (noDot s /\ splitDots s = [s]) \/ 2 <= List.length (splitDots s).
Proof.
  induction s as [|c s IH]; cbn [splitDots].
  - left. split; [intros c []|reflexivity].
  - destruct (Ascii.eqb c dot) eqn:Hc.
    + right. pose proof (splitDots_not_nil s). destruct (splitDots s); cbn; [congruence|lia].
    + destruct IH as [[Hn ->]|IH].
      * left. split; [|reflexivity]. intros d [<-|Hd]; [assumption | now apply Hn].
      * right. destruct (splitDots s); cbn in *; lia.
Qed.

(** What the thousand-separator step leaves of [a.post], [post] without a
    dot: the dots of [a] go, the last one stays. *)
Lemma rejoin_last_dot (a post : bytes) :
  noDot post ->
  (let s := a ++ dot :: post in
   let parts := splitDots s in
   if 2 <? List.length parts
   then joinParts (removelast parts) ++ [dot] ++ last parts []
   else s)
  = filter (fun c => negb (Ascii.eqb c dot)) a ++ dot :: post.
Proof.
  intros Hpost. cbv zeta.
  rewrite splitDots_app, (splitDots_noDot Hpost), length_app. cbn [List.length].
  destruct (splitDots_one_or_more a) as [[Ha Hs]|Hlen].
  - rewrite Hs. cbn [List.length]. cbn [Nat.ltb Nat.leb Nat.add].
    f_equal. symmetry. rewrite forallb_filter_id; [reflexivity|].
    apply forallb_forall. intros c Hc. now rewrite (Ha c Hc).
  - destruct (Nat.ltb_spec 2 (List.length (splitDots a) + 1)); [|lia].
    rewrite removelast_last, last_last, concat_splitDots. reflexivity.
Qed.

Lemma isDigit_isRateChar (c : ascii) : isDigit c = true -> isRateChar c = true.
Proof. unfold isRateChar. now intros ->. Qed.

Lemma isDigit_not_separator (c : ascii) :
  isDigit c = true -> Ascii.eqb c comma = false /\ Ascii.eqb c dot = false.
Proof.
  unfold isDigit. intros Hc. apply andb_true_iff in Hc. destruct Hc as [H1 H2].
  apply Nat.leb_le in H1, H2.
  split; apply Ascii.eqb_neq; intros ->; cbn in *; lia.
Qed.

(** Of the cleaned text, with commas made dots, the bytes that are no
    dots are the digits of the text. *)
Lemma digits_of_cleaned (s : bytes) :
  filter (fun c => negb (Ascii.eqb c dot)) (commasToDots (removeNonRate s))
  = filter isDigit s.
Proof.
  unfold commasToDots, removeNonRate.
  induction s as [|c s IH]; cbn [filter map]; [reflexivity|].
  destruct (isDigit c) eqn:Hd.
  - rewrite (isDigit_isRateChar _ Hd). cbn [map filter].
    destruct (isDigit_not_separator _ Hd) as [-> Hdot]. rewrite Hdot. cbn [negb].
    now rewrite IH.
  - unfold isRateChar. rewrite Hd. cbn [orb].
    destruct (Ascii.eqb c comma) eqn:Hc; cbn [orb map filter].
    + rewrite Hc, Ascii.eqb_refl. cbn [negb]. exact IH.
    + destruct (Ascii.eqb c dot) eqn:Hdot; cbn [map filter]; [|exact IH].
      rewrite Hc, Hdot. cbn [negb]. exact IH.
Qed.

Definition noSeparator (s : bytes) : Prop :=
  existsb (fun c => Ascii.eqb c comma || Ascii.eqb c dot) s = false.

Lemma cleaned_noSeparator (s : bytes) :
  noSeparator s ->
  commasToDots (removeNonRate s) = filter isDigit s /\ noDot (filter isDigit s).
Proof.
  unfold noSeparator, commasToDots, removeNonRate. intros Hs. split.
  - induction s as [|c s IH]; cbn [filter map]; [reflexivity|].
    cbn [existsb] in Hs. apply orb_false_iff in Hs. destruct Hs as [Hc Hs].
    apply orb_false_iff in Hc. destruct Hc as [Hc Hdot].
    assert (Hrc : isRateChar c = isDigit c)
      by (unfold isRateChar; now rewrite Hc, Hdot, !orb_false_r).
    rewrite Hrc.
    destruct (isDigit c); cbn [map]; [rewrite Hc|]; now rewrite (IH Hs).
  - intros c Hc. apply filter_In in Hc. now apply isDigit_not_separator.
Qed.

Lemma list_ascii_of_string_app (a b : string) :
  list_ascii_of_string (a ++ b) = list_ascii_of_string a ++ list_ascii_of_string b.
Proof. induction a as [|c a IH]; cbn; [reflexivity | now rewrite IH]. Qed.

Lemma string_of_list_ascii_app (a b : bytes) :
  string_of_list_ascii (a ++ b) = (string_of_list_ascii a ++ string_of_list_ascii b)%string.
Proof. induction a as [|c a IH]; cbn; [reflexivity | now rewrite IH]. Qed.

Context `{Strconv}.

(** X2. The last comma or dot of the text is the decimal point, and
    nothing else of the text counts but its digits: for a text
    [pre sep post], [sep] a comma or a dot and [post] without either,
    [parseVESRate] hands [strconv.ParseFloat] the digits of [pre], a dot,
    and the digits of [post], and answers what it answers (rate and nil, or
    0 and the error wrapped). Earlier commas and dots (thousand
    separators), currency symbols, letters and white space are dropped. *)
Theorem parseVESRate_last_separator (pre post : string) (sep : ascii) :
  sep = comma \/ sep = dot ->
  hasSeparator post = false ->
  parseVESRate (pre ++ String sep post)
  = parsedAs (digitsOf pre ++ "." ++ digitsOf post).
Proof.
  intros Hsep Hpost. unfold parseVESRate. cbv zeta.
  rewrite TrimSpace_not_rate.
  rewrite list_ascii_of_string_app. cbn [list_ascii_of_string].
  set (a := list_ascii_of_string pre). set (b := list_ascii_of_string post).
  assert (Hrate : isRateChar sep = true) by (destruct Hsep; subst sep; reflexivity).
  assert (Hdot : (if Ascii.eqb sep comma then dot else sep) = dot)
    by (destruct Hsep; subst sep; reflexivity).
  assert (Hcl : removeNonRate (a ++ sep :: b) = removeNonRate a ++ sep :: removeNonRate b).
  { unfold removeNonRate. rewrite filter_app. cbn [filter]. now rewrite Hrate. }
  rewrite Hcl.
  assert (Hm : forall (A : Type) (l : bytes) (x y : A),
             l <> [] -> match l with [] => x | _ :: _ => y end = y)
    by (intros ? [|] ? ? ?; congruence).
  rewrite Hm by (now destruct (removeNonRate a)). clear Hm.
  assert (Hc2d : commasToDots (removeNonRate a ++ sep :: removeNonRate b)
                 = commasToDots (removeNonRate a) ++ dot :: commasToDots (removeNonRate b)).
  { unfold commasToDots. rewrite map_app. cbn [map]. now rewrite Hdot. }
  rewrite Hc2d.
  destruct (cleaned_noSeparator (s := b) Hpost) as [Hb Hnd]. rewrite Hb.
  pose proof (rejoin_last_dot (commasToDots (removeNonRate a)) Hnd) as Hj.
  cbv zeta in Hj. rewrite Hj, digits_of_cleaned.
  rewrite string_of_list_ascii_app. cbn [string_of_list_ascii].
  unfold parsedAs, digitsOf. fold a. fold b. reflexivity.
Qed.

(** X3. A text without comma and dot is parsed as its digits; when it has
    no digit either (the empty text, white space, letters only) the answer
    is 0 and the error "empty rate string", and [strconv.ParseFloat] is not
    asked. *)
Theorem parseVESRate_without_separator (s : string) :
  hasSeparator s = false ->
  parseVESRate s
  = if String.eqb (digitsOf s) "" then (0%float, Some "empty rate string"%string)
    else parsedAs (digitsOf s).
Proof.
  intros Hs. unfold parseVESRate. cbv zeta.
  rewrite TrimSpace_not_rate.
  set (b := list_ascii_of_string s).
  destruct (cleaned_noSeparator (s := b) Hs) as [Hb Hnd].
  assert (Hr : removeNonRate b = filter isDigit b).
  { rewrite <- Hb. unfold commasToDots. symmetry.
    rewrite <- (map_id (removeNonRate b)) at 2. apply map_ext_in.
    intros c Hc. destruct (Ascii.eqb c comma) eqn:E; [|reflexivity].
    exfalso. apply Ascii.eqb_eq in E. subst c.
    unfold removeNonRate in Hc. apply filter_In in Hc. destruct Hc as [Hc _].
    unfold noSeparator in Hs. rewrite <- not_true_iff_false in Hs. apply Hs.
    apply existsb_exists. exists comma. split; [assumption | reflexivity]. }
  unfold digitsOf. fold b. rewrite Hr. rewrite Hr in Hb.
  destruct (filter isDigit b) as [|c l]; [reflexivity|].
  cbn [string_of_list_ascii String.eqb].
  rewrite Hb, (splitDots_noDot Hnd). cbn [List.length Nat.ltb Nat.leb].
  reflexivity.
Qed.

End ParseProps.

Lemma parseVESRate_last_separator_witness :
  let pre := "Bs. 1.234"%string in
  let post := "56 "%string in
  (scraper.comma = scraper.comma \/ scraper.comma = scraper.dot)
  /\ hasSeparator post = false
  /\ scraper.parseVESRate (pre ++ String scraper.comma post) = (1234.56%float, None).
Proof.
  intros pre post.
  assert (Hsep : scraper.comma = scraper.comma \/ scraper.comma = scraper.dot) by now left.
  assert (Hpost : hasSeparator post = false) by reflexivity.
  split; [exact Hsep|]. split; [exact Hpost|].
  rewrite (@parseVESRate_last_separator shortDecimals pre post scraper.comma Hsep Hpost).
  vm_compute. reflexivity.
Defined.

Lemma parseVESRate_without_separator_witness :
  hasSeparator "USD"%string = false
  /\ scraper.parseVESRate "USD" = (0%float, Some "empty rate string"%string)
  /\ hasSeparator " 46 Bs"%string = false
  /\ scraper.parseVESRate " 46 Bs" = (46%float, None).
Proof.
  assert (H1 : hasSeparator "USD"%string = false) by reflexivity.
  assert (H2 : hasSeparator " 46 Bs"%string = false) by reflexivity.
  split; [exact H1|]. split.
  - rewrite (@parseVESRate_without_separator shortDecimals "USD" H1). reflexivity.
  - split; [exact H2|].
    rewrite (@parseVESRate_without_separator shortDecimals " 46 Bs" H2).
    vm_compute. reflexivity.
Defined.

(** The dot of an abbreviation counts as a separator like any other:
    "Bs.45" is read as 0.45, and "1.234" as 1.234. *)
Example parseVESRate_abbreviation_dot :
  scraper.parseVESRate "Bs.45" = (0.45%float, None)
  /\ scraper.parseVESRate "1.234" = (1.234%float, None)
  /\ scraper.parseVESRate "45,82" = (45.82%float, None).
Proof. vm_compute. repeat split; reflexivity. Qed.

(** ** [scraper.BCVScraper_Fetch] *)

Section BCVFetchProps.
Import scraper.
Context `{Strconv}.

(** What the callbacks keep true of the shared variables: a rate that has
    been found is positive, and none is set before one is found. *)
Definition foundPositive (v : FetchVars) : Prop :=
  if found v then (0 <? rate v)%float = true else rate v = 0%float.

Lemma callback_foundPositive (c : Callback) (v : FetchVars) (w : World) :
  foundPositive v -> foundPositive (fst (callback c v w)).
Proof.
  unfold foundPositive. intros Hv.
  destruct c as [e | e | e | e | err code | url]; cbn [callback].
  - destruct (parseVESRate (textOrChildText e)) as [parsed [err|]]; [exact Hv|].
    destruct (0 <? parsed)%float eqn:Hp; [exact Hp | exact Hv].
  - destruct (found v) eqn:Hf; [cbn; now rewrite Hf|].
    destruct (parentHasDolar e || Contains (Text e) "USD"); [|cbn; now rewrite Hf].
    destruct (parseVESRate (textOrChildText e)) as [parsed [err|]]; [cbn; now rewrite Hf|].
    destruct (0 <? parsed)%float eqn:Hp; [exact Hp | cbn; now rewrite Hf].
  - destruct (found v) eqn:Hf; [cbn; now rewrite Hf|].
    destruct (parseVESRate (ChildText_strong e)) as [parsed [err|]]; [cbn; now rewrite Hf|].
    destruct (0 <? parsed)%float eqn:Hp; [exact Hp | cbn; now rewrite Hf].
  - destruct (found v) eqn:Hf; [cbn; now rewrite Hf|].
    destruct (parseVESRate (Text e)) as [parsed [err|]]; [cbn; now rewrite Hf|].
    destruct ((20 <? parsed)%float && (parsed <? 200)%float) eqn:Hp; [|cbn; now rewrite Hf].
    apply andb_true_iff in Hp. destruct Hp as [Hp _]. cbn.
    apply float_lt_trans with (y := 20%float); [reflexivity | exact Hp].
  - exact Hv.
  - exact Hv.
Qed.

Lemma runCalls_foundPositive (cs : list Callback) (v : FetchVars) (w : World) :
  foundPositive v -> foundPositive (fst (runCalls cs v w)).
Proof.
  revert v w. induction cs as [|c cs IH]; intros v w Hv; cbn [runCalls]; [exact Hv|].
  unfold bind. pose proof (callback_foundPositive c v w Hv) as Hc.
  destruct (callback c v w) as [v' w']. now apply IH.
Qed.

(** X4. Whatever the page holds and whatever Colly calls, [Fetch] of the
    BCV scraper answers either an error together with the rate 0, or no
    error together with a rate greater than 0. *)
Theorem BCVScraper_Fetch_positive_or_error (visit : Visit) (w : World) :
  match fst (BCVScraper_Fetch visit w) with
  | (r, Some _) => r = 0%float
  | (r, None) => (0 <? r)%float = true
  end.
Proof.
  unfold BCVScraper_Fetch, bind.
  pose proof (@runCalls_foundPositive (calls visit)
                {| rate := 0; scrapeErr := None; found := false |} w eq_refl) as Hv.
  destruct (runCalls (calls visit) _ w) as [v w']. cbn [fst] in Hv.
  destruct (visitError visit); [reflexivity|].
  destruct (scrapeErr v); [reflexivity|].
  unfold foundPositive in Hv.
  destruct (found v); cbn [negb orb].
  - destruct (rate v =? 0)%float; [reflexivity | exact Hv].
  - reflexivity.
Qed.

End BCVFetchProps.

Section BCVErrorProps.
Import scraper.
Context `{Strconv}.

Lemma callback_scrapeErr (c : Callback) (v : FetchVars) (w : World) :
  scrapeErr v <> None \/ (exists err code, c = OnError err code) ->
  scrapeErr (fst (callback c v w)) <> None.
Proof.
  intros [Hv | (err & code & ->)]; [|cbn; discriminate].
  destruct c as [e | e | e | e | err code | url]; cbn [callback].
  - destruct (parseVESRate (textOrChildText e)) as [parsed [err|]]; [exact Hv|].
    destruct (0 <? parsed)%float; exact Hv.
  - destruct (found v); [exact Hv|].
    destruct (parentHasDolar e || Contains (Text e) "USD"); [|exact Hv].
    destruct (parseVESRate (textOrChildText e)) as [parsed [err|]]; [exact Hv|].
    destruct (0 <? parsed)%float; exact Hv.
  - destruct (found v); [exact Hv|].
    destruct (parseVESRate (ChildText_strong e)) as [parsed [err|]]; [exact Hv|].
    destruct (0 <? parsed)%float; exact Hv.
  - destruct (found v); [exact Hv|].
    destruct (parseVESRate (Text e)) as [parsed [err|]]; [exact Hv|].
    destruct ((20 <? parsed)%float && (parsed <? 200)%float); exact Hv.
  - cbn. discriminate.
  - exact Hv.
Qed.

Lemma runCalls_scrapeErr (cs : list Callback) (v : FetchVars) (w : World) :
  scrapeErr v <> None \/ (exists err code, In (OnError err code) cs) ->
  scrapeErr (fst (runCalls cs v w)) <> None.
Proof.
  revert v w. induction cs as [|c cs IH]; intros v w Hv; cbn [runCalls].
  - destruct Hv as [Hv | (err & code & [])]. exact Hv.
  - unfold bind.
    assert (Hc : (scrapeErr v <> None \/ (exists err code, c = OnError err code))
                 \/ (exists err code, In (OnError err code) cs)).
    { destruct Hv as [Hv | (err & code & [-> | Hin])]; eauto 6. }
    destruct Hc as [Hc | Hc].
    + pose proof (@callback_scrapeErr c v w Hc) as Hc'.
      destruct (callback c v w) as [v' w']. apply IH. now left.
    + destruct (callback c v w) as [v' w']. apply IH. now right.
Qed.

(** X5. An error of the visit wins over a rate that was found: when
    [c.Visit] returns an error, or Colly called the error callback at any
    point of the visit, [Fetch] of the BCV scraper answers an error and
    the rate 0, whatever the other callbacks found. *)
Theorem BCVScraper_Fetch_error_wins (visit : Visit) (w : World) :
  visitError visit <> None \/ (exists err code, In (OnError err code) (calls visit)) ->
  exists e : Go.error, fst (BCVScraper_Fetch visit w) = (0%float, Some e).
Proof.
  intros Hv. unfold BCVScraper_Fetch, bind.
  pose proof (fun H' => @runCalls_scrapeErr (calls visit)
                {| rate := 0; scrapeErr := None; found := false |} w (or_intror H')) as Hs.
  destruct (runCalls (calls visit) _ w) as [v w']. cbn [fst] in Hs.
  destruct (visitError visit) as [err|]; [eexists; reflexivity|].
  destruct Hv as [Hv | Hv]; [now elim Hv|].
  specialize (Hs Hv). destruct (scrapeErr v) as [err|]; [eexists; reflexivity | now elim Hs].
Qed.

End BCVErrorProps.

Lemma BCVScraper_Fetch_error_wins_witness :
  let usd := {| scraper.ChildText_strong := " 45,82 "; scraper.Text := "USD 45,82";
                scraper.parentHasDolar := true |} in
  let visit := {| scraper.calls := [scraper.OnRequest "https://www.bcv.org.ve/";
                                    scraper.OnHTML_dolar usd;
                                    scraper.OnError "unexpected EOF"%string 0];
                  scraper.visitError := None |} in
  fst (@scraper.BCVScraper_Fetch shortDecimals
         {| scraper.calls := [scraper.OnRequest "https://www.bcv.org.ve/";
                              scraper.OnHTML_dolar usd];
            scraper.visitError := None |} world0) = (45.82%float, None)
  /\ exists e : Go.error,
       fst (@scraper.BCVScraper_Fetch shortDecimals visit world0) = (0%float, Some e).
Proof.
  intros usd visit. split; [vm_compute; reflexivity|].
  apply (@BCVScraper_Fetch_error_wins shortDecimals visit world0).
  right. exists "unexpected EOF"%string, 0. cbn. auto.
Defined.

(** ** [scraper.BinanceFetcher_Fetch] *)

Section BinanceFetchProps.
Import scraper.
Context `{Strconv} `{Json}.

Lemma collectPrices_parsable (data : list binanceDatum) (prices : list float) (w : World) :
  fst (collectPrices data prices w) = prices ++ parsablePrices data.
Proof.
  revert prices w. induction data as [|ad data IH]; intros prices w; cbn.
  - now rewrite app_nil_r.
  - destruct (ParseFloat (Price (Adv ad))) as [price [e|]].
    + unfold bind, log_Printf, emit. cbn. apply IH.
    + rewrite IH, <- app_assoc. reflexivity.
Qed.

(** X6. [Fetch] of the Binance fetcher answers no error only when the
    request was answered with status 200, the body was read and decoded,
    and the price of at least one advertisement parses; the rate is then
    the median of the prices that parse, the others being skipped. Every
    error comes with the rate 0. *)
Theorem BinanceFetcher_Fetch_median_or_error (x : Exchange) (w : World) :
  match fst (BinanceFetcher_Fetch x w) with
  | (r, Some _) => r = 0%float
  | (r, None) =>
      exists (body : string) (result : binanceResponse),
        x = Response 200 (body, None)
        /\ Unmarshal body = (result, None)
        /\ parsablePrices (Data result) <> []
        /\ r = median (parsablePrices (Data result))
  end.
Proof.
  unfold BinanceFetcher_Fetch, bind, ret, log_Printf, emit. cbn [fst snd].
  destruct x as [err | code [body [rerr|]]]; cbn; try reflexivity.
  - destruct (Z.eqb_spec code 200); cbn; reflexivity.
  - destruct (Z.eqb_spec code 200) as [Hcode|]; cbn; [|reflexivity].
    subst code.
    destruct (Unmarshal body) as [result [uerr|]] eqn:Hu; cbn; [reflexivity|].
    destruct (Data result) as [|ad data] eqn:Hd; cbn -[collectPrices]; [reflexivity|].
    pose proof (collectPrices_parsable (ad :: data) []
                  {| clock := clock w; ticks := ticks w;
                     trace := trace w ++ [EvLog "Binance: Fetching P2P USDT/VES rates" []] |})
      as Hc.
    destruct (collectPrices (ad :: data) [] _) as [prices w'].
    cbn [fst app] in Hc. subst prices.
    destruct (parsablePrices (ad :: data)) as [|p ps] eqn:Hp; cbn; [reflexivity|].
    exists body, result. rewrite Hd, Hp.
    split; [reflexivity|]. split; [exact Hu|]. split; [discriminate|reflexivity].
Qed.

(** X7. When the request is answered with status 200 and the body is read
    and decoded, one price that parses is enough: [Fetch] answers the median
    of the prices that parse and no error, however many other prices do
    not parse. *)
Theorem BinanceFetcher_Fetch_skips_unparsable (body : string) (result : binanceResponse)
        (w : World) :
  Unmarshal body = (result, None) ->
  parsablePrices (Data result) <> [] ->
  fst (BinanceFetcher_Fetch (Response 200 (body, None)) w)
  = (median (parsablePrices (Data result)), None).
Proof.
  intros Hu Hp.
  unfold BinanceFetcher_Fetch, bind, ret, log_Printf, emit. cbn. rewrite Hu.
  destruct (Data result) as [|ad data] eqn:Hd; [now elim Hp|].
  pose proof (collectPrices_parsable (ad :: data) []
                {| clock := clock w; ticks := ticks w;
                   trace := trace w ++ [EvLog "Binance: Fetching P2P USDT/VES rates" []] |})
    as Hc.
  destruct (collectPrices (ad :: data) [] _) as [prices w'].
  cbn [fst app] in Hc. subst prices.
  destruct (parsablePrices (ad :: data)) as [|p ps]; [now elim Hp|]. reflexivity.
Qed.

End BinanceFetchProps.

Lemma BinanceFetcher_Fetch_skips_unparsable_witness :
  let result := {| scraper.Code := "000000"; scraper.Message := "";
                   scraper.Data := [adPriced "46.5"; adPriced "n/a"; adPriced "45.9";
                                    adPriced ""; adPriced "47.25"];
                   scraper.Total := 5 |} in
  parsablePrices (scraper.Data result) = [46.5; 45.9; 47.25]%float
  /\ fst (@scraper.BinanceFetcher_Fetch shortDecimals (scriptedJson result)
            (scraper.Response 200 ("{}"%string, None)) world0)
     = (46.5%float, None).
Proof.
  split; [vm_compute; reflexivity|].
  refine (eq_trans (@BinanceFetcher_Fetch_skips_unparsable shortDecimals
           (scriptedJson {| scraper.Code := "000000"; scraper.Message := "";
                            scraper.Data := [adPriced "46.5"; adPriced "n/a"; adPriced "45.9";
                                             adPriced ""; adPriced "47.25"];
                            scraper.Total := 5 |}) "{}"%string _ world0 _ _) _).
  - reflexivity.
  - vm_compute. discriminate.
  - vm_compute. reflexivity.
Defined.

(** ** [Service] and the jobs: what a refresh writes, and what it leaves *)

Section RefreshProps.
Context `{time.LocalZone}.
Context {B F : Type} `{rates.Scraper B} `{rates.Scraper F}.

(** X8. When the fetcher of a source answers a rate and no error, the
    refresh of that source returns no error, stores that rate with the
    reading of the clock as its time, and leaves the value and the time of
    the other source as they were. *)
Theorem successful_refresh_stores_rate
  (src : Source) (s : rates.Service B F) (w : World) (rate : float) :
  fetcherAnswer src s = (rate, None) ->
  let r := Refresh src s w in
  let st := rates.store (snd (fst r)) in
  fst (fst r) = None
  /\ match src with
     | SrcBCV =>
         rates.bcv st = rate /\ rates.bcvTime st = nthNow w 0
         /\ rates.binance st = rates.binance (rates.store s)
         /\ rates.binTime st = rates.binTime (rates.store s)
     | SrcBinance =>
         rates.binance st = rate /\ rates.binTime st = nthNow w 0
         /\ rates.bcv st = rates.bcv (rates.store s)
         /\ rates.bcvTime st = rates.bcvTime (rates.store s)
     end.
Proof.
  destruct src; simpl;
    unfold rates.FetchBCV, rates.FetchBinance, rates.call_Fetch, rates.SetBCV,
      rates.SetBinance, nthNow, log_Printf, time_Now, bind, emit, ret.
  - destruct (rates.Fetch (rates.bcvScraper s)) as [[rate' err] sc]; simpl.
    intros [= -> ->]. simpl. rewrite Nat.add_0_r. repeat split; reflexivity.
  - destruct (rates.Fetch (rates.binanceFetcher s)) as [[rate' err] sc]; simpl.
    intros [= -> ->]. simpl. rewrite Nat.add_0_r. repeat split; reflexivity.
Qed.

(** What a refresh of [src] does to the service, whatever the fetcher
    answers: it records one call of the fetcher of [src], and leaves the
    value, the time and the scraper of the other source alone; when the
    fetcher fails, it leaves the whole store. *)
Lemma FetchBinance_frame (s : rates.Service B F) (w : World) :
  let r := rates.FetchBinance s w in
  fetches (trace (snd r)) = fetches (trace w) ++ [SrcBinance]
  /\ rates.bcv (rates.store (snd (fst r))) = rates.bcv (rates.store s)
  /\ rates.bcvTime (rates.store (snd (fst r))) = rates.bcvTime (rates.store s)
  /\ rates.bcvScraper (snd (fst r)) = rates.bcvScraper s
  /\ (snd (fst (rates.Fetch (rates.binanceFetcher s))) <> None ->
      rates.store (snd (fst r)) = rates.store s).
Proof.
  unfold rates.FetchBinance, rates.call_Fetch, rates.SetBinance,
    log_Printf, time_Now, bind, emit, ret.
  destruct (rates.Fetch (rates.binanceFetcher s)) as [[rate err] sc].
  destruct err; cbn -[fetches]; rewrite <- ?app_assoc, !fetches_app; cbn;
    rewrite ?app_nil_r; repeat split; try reflexivity.
  intros Hn. now elim Hn.
Qed.

Lemma FetchBCV_frame (s : rates.Service B F) (w : World) :
  let r := rates.FetchBCV s w in
  fetches (trace (snd r)) = fetches (trace w) ++ [SrcBCV]
  /\ rates.binance (rates.store (snd (fst r))) = rates.binance (rates.store s)
  /\ rates.binTime (rates.store (snd (fst r))) = rates.binTime (rates.store s)
  /\ rates.binanceFetcher (snd (fst r)) = rates.binanceFetcher s
  /\ (snd (fst (rates.Fetch (rates.bcvScraper s))) <> None ->
      rates.store (snd (fst r)) = rates.store s).
Proof.
  unfold rates.FetchBCV, rates.call_Fetch, rates.SetBCV,
    log_Printf, time_Now, bind, emit, ret.
  destruct (rates.Fetch (rates.bcvScraper s)) as [[rate err] sc].
  destruct err; cbn -[fetches]; rewrite <- ?app_assoc, !fetches_app; cbn;
    rewrite ?app_nil_r; repeat split; try reflexivity.
  intros Hn. now elim Hn.
Qed.

(** A turn of the loop of [binanceJob] on a tick. *)
Lemma binanceJob_iteration_tick (svc : rates.Service B F) (w : World) :
  let r := scheduler.binanceJob_iteration scheduler.TimerFired svc w in
  fst (fst r) = true
  /\ fetches (trace (snd r)) = fetches (trace w) ++ [SrcBinance]
  /\ rates.bcv (rates.store (snd (fst r))) = rates.bcv (rates.store svc)
  /\ rates.bcvTime (rates.store (snd (fst r))) = rates.bcvTime (rates.store svc)
  /\ rates.bcvScraper (snd (fst r)) = rates.bcvScraper svc
  /\ (snd (fst (rates.Fetch (rates.binanceFetcher svc))) <> None ->
      rates.store (snd (fst r)) = rates.store svc).
Proof.
  intros r. assert (Hr : r = scheduler.binanceJob_iteration scheduler.TimerFired svc w)
    by reflexivity.
  clearbody r. unfold scheduler.binanceJob_iteration in Hr.
  unfold bind at 1, log_Println at 1, emit at 1 in Hr. cbv beta iota in Hr.
  set (w1 := {| clock := clock w; ticks := ticks w;
                trace := trace w ++ [EvLog "Scheduler: Refreshing Binance rate" []] |}) in Hr.
  unfold bind at 1 in Hr. cbv beta in Hr.
  pose proof (FetchBinance_frame svc w1) as Hf. cbv zeta in Hf.
  destruct (rates.FetchBinance svc w1) as [[err svc'] w'].
  cbn [fst snd] in Hf. destruct Hf as (Ht & F1 & F2 & F3 & F4).
  assert (Hw1 : fetches (trace w1) = fetches (trace w)).
  { subst w1. cbn [trace]. rewrite fetches_app. cbn. now rewrite app_nil_r. }
  clearbody w1. rewrite Hw1 in Ht.
  destruct err; unfold bind, log_Printf, emit, ret in Hr; subst r; cbn -[fetches];
    rewrite ?fetches_app; cbn; rewrite ?app_nil_r; auto 10.
Qed.

(** A turn of the loop of [bcvDailyJob]: at most one call, of the BCV
    scraper. *)
Lemma bcvDailyJob_iteration_frame
  (choice : scheduler.Select) (svc : rates.Service B F) (w : World) :
  let r := scheduler.bcvDailyJob_iteration choice svc w in
  (fst (fst r) = match choice with scheduler.StopClosed => false | _ => true end)
  /\ (exists n : nat,
        (n <= match choice with scheduler.StopClosed => 0 | _ => 1 end)%nat
        /\ fetches (trace (snd r)) = fetches (trace w) ++ repeat SrcBCV n)
  /\ rates.binance (rates.store (snd (fst r))) = rates.binance (rates.store svc)
  /\ rates.binTime (rates.store (snd (fst r))) = rates.binTime (rates.store svc)
  /\ rates.binanceFetcher (snd (fst r)) = rates.binanceFetcher svc
  /\ (snd (fst (rates.Fetch (rates.bcvScraper svc))) <> None ->
      rates.store (snd (fst r)) = rates.store svc).
Proof.
  intros r. assert (Hr : r = scheduler.bcvDailyJob_iteration choice svc w) by reflexivity.
  clearbody r. unfold scheduler.bcvDailyJob_iteration in Hr.
  unfold bind at 1 in Hr. destruct (scheduler.nextBCVRunTime w) as [nextRun w1] eqn:E1.
  assert (T1 : trace w1 = trace w).
  { unfold scheduler.nextBCVRunTime, time_Now, bind, ret in E1. now inversion E1. }
  unfold bind at 1 in Hr. destruct (time_Until nextRun w1) as [d w2] eqn:E2.
  assert (T2 : trace w2 = trace w).
  { unfold time_Until, time_Now in E2. inversion E2. exact T1. }
  unfold bind at 1, log_Printf at 1, emit at 1 in Hr. cbv beta iota in Hr.
  set (w3 := {| clock := clock w2; ticks := ticks w2; trace := _ |}) in Hr.
  assert (T3 : fetches (trace w3) = fetches (trace w)).
  { subst w3. cbn [trace]. rewrite fetches_app, T2. cbn. now rewrite app_nil_r. }
  clearbody w3.
  destruct choice.
  - unfold bind, log_Println, emit, ret in Hr. subst r. cbn -[fetches].
    rewrite fetches_app, T3. cbn. rewrite app_nil_r.
    repeat split; try reflexivity. exists 0%nat. cbn. rewrite app_nil_r. split; [lia|reflexivity].
  - unfold scheduler.bcvDailyJob_wake in Hr.
    unfold bind at 1 2 in Hr. destruct (scheduler.isWeekday w3) as [weekday w4] eqn:E4.
    assert (T4 : trace w4 = trace w3).
    { unfold scheduler.isWeekday, time_Now, bind, ret in E4. now inversion E4. }
    destruct weekday.
    + unfold bind at 1, log_Println at 1, emit at 1 in Hr. cbv beta iota in Hr.
      set (w5 := {| clock := clock w4; ticks := ticks w4; trace := _ |}) in Hr.
      assert (T5 : fetches (trace w5) = fetches (trace w)).
      { subst w5. cbn [trace]. rewrite fetches_app, T4, T3. cbn. now rewrite app_nil_r. }
      clearbody w5.
      unfold bind at 1 in Hr. cbv beta in Hr.
      pose proof (FetchBCV_frame svc w5) as Hf. cbv zeta in Hf.
      destruct (rates.FetchBCV svc w5) as [[err svc'] w6].
      cbn [fst snd] in Hf. destruct Hf as (Ht & F1 & F2 & F3 & F4).
      rewrite T5 in Ht.
      destruct err; unfold bind, log_Printf, emit, ret in Hr; subst r; cbn -[fetches];
        rewrite ?fetches_app; cbn -[fetches]; rewrite ?app_nil_r;
        (repeat split; try assumption; exists 1%nat; split; [lia | exact Ht]).
    + unfold bind, log_Println, emit, ret in Hr. subst r. cbn -[fetches].
      rewrite fetches_app, T4, T3. cbn. rewrite app_nil_r.
      repeat split; try reflexivity. exists 0%nat. cbn. rewrite app_nil_r. split; [lia|reflexivity].
Qed.

Lemma fetches_log (w : World) (line : string) :
  fetches (trace (snd (log_Println line w))) = fetches (trace w).
Proof.
  unfold log_Println, emit. cbn [snd trace]. rewrite fetches_app. cbn. apply app_nil_r.
Qed.

Lemma repeat_snoc (A : Type) (a : A) (n : nat) : a :: repeat a n = repeat a n ++ [a].
Proof.
  induction n as [|n IH]; [reflexivity|]. cbn. now rewrite <- IH.
Qed.

Lemma binanceJob_loop_turn
  (choice : scheduler.Select) (rest : list scheduler.Select)
  (svc : rates.Service B F) (w : World) :
  scheduler.binanceJob_loop (choice :: rest) svc w =
    let '(continue, svc', w') := scheduler.binanceJob_iteration choice svc w in
    if continue : bool then scheduler.binanceJob_loop rest svc' w' else (svc', w').
Proof.
  cbn [scheduler.binanceJob_loop]. unfold bind at 1.
  destruct (scheduler.binanceJob_iteration choice svc w) as [[continue svc'] w'].
  destruct continue; reflexivity.
Qed.

Lemma binanceJob_loop_run (choices : list scheduler.Select) (svc : rates.Service B F) (w : World) :
  let r := scheduler.binanceJob_loop choices svc w in
  fetches (trace (snd r)) = fetches (trace w) ++ repeat SrcBinance (ticksBeforeStop choices)
  /\ rates.bcv (rates.store (fst r)) = rates.bcv (rates.store svc)
  /\ rates.bcvTime (rates.store (fst r)) = rates.bcvTime (rates.store svc)
  /\ rates.bcvScraper (fst r) = rates.bcvScraper svc
  /\ ((forall sc : F, snd (fst (rates.Fetch sc)) <> None) ->
      rates.store (fst r) = rates.store svc).
Proof.
  revert svc w. induction choices as [|choice rest IH]; intros svc w; cbv zeta.
  - cbn. rewrite app_nil_r. auto.
  - rewrite binanceJob_loop_turn.
    destruct choice.
    + unfold scheduler.binanceJob_iteration, bind, log_Println, emit, ret.
      cbn -[fetches]. rewrite fetches_app. cbn. rewrite !app_nil_r. auto.
    + pose proof (binanceJob_iteration_tick svc w) as Ht. cbv zeta in Ht.
      destruct (scheduler.binanceJob_iteration scheduler.TimerFired svc w)
        as [[continue svc'] w'].
      cbn [fst snd] in Ht. destruct Ht as (-> & Ht & H1' & H2' & H3' & H4').
      specialize (IH svc' w'). cbv zeta in IH.
      destruct IH as (It & I1 & I2 & I3 & I4).
      cbn [ticksBeforeStop repeat].
      rewrite It, Ht, <- app_assoc. cbn [app].
      repeat split; try congruence.
      intros Hall. rewrite (I4 Hall). apply H4', Hall.
Qed.

Lemma bcvDailyJob_loop_run (choices : list scheduler.Select) (svc : rates.Service B F) (w : World) :
  let r := scheduler.bcvDailyJob_loop choices svc w in
  (exists n : nat,
     (n <= ticksBeforeStop choices)%nat
     /\ fetches (trace (snd r)) = fetches (trace w) ++ repeat SrcBCV n)
  /\ rates.binance (rates.store (fst r)) = rates.binance (rates.store svc)
  /\ rates.binTime (rates.store (fst r)) = rates.binTime (rates.store svc)
  /\ rates.binanceFetcher (fst r) = rates.binanceFetcher svc
  /\ ((forall sc : B, snd (fst (rates.Fetch sc)) <> None) ->
      rates.store (fst r) = rates.store svc).
Proof.
  revert svc w. induction choices as [|choice rest IH]; intros svc w; cbv zeta.
  - cbn. repeat split; auto. exists 0%nat. cbn. rewrite app_nil_r. auto.
  - rewrite bcvDailyJob_loop_turn.
    pose proof (bcvDailyJob_iteration_frame choice svc w) as Ht. cbv zeta in Ht.
    destruct (scheduler.bcvDailyJob_iteration choice svc w) as [[continue svc'] w'].
    cbn [fst snd] in Ht. destruct Ht as (Hc & (n & Hn & Ht) & H1' & H2' & H3' & H4').
    destruct choice; subst continue.
    + cbn [fst snd]. repeat split; auto.
      exists n. cbn [ticksBeforeStop]. split; [lia | exact Ht].
    + specialize (IH svc' w'). cbv zeta in IH.
      destruct IH as ((m & Hm & It) & I1 & I2 & I3 & I4).
      repeat split; try congruence.
      * exists (n + m)%nat. cbn [ticksBeforeStop]. split; [lia|].
        rewrite It, Ht, <- app_assoc, repeat_app. reflexivity.
      * intros Hall. rewrite (I4 Hall). apply H4', Hall.
Qed.

(** X9. [binanceJob] refreshes the Binance rate on every tick until the
    stop case is taken: one call of the Binance fetcher for each tick,
    whether the refreshes before it failed or not, and no call of the BCV
    scraper. The BCV value, its time and the BCV scraper are left as they
    were. *)
Theorem binanceJob_fetches_every_tick
  (choices : list scheduler.Select) (svc : rates.Service B F) (w : World) :
  let r := scheduler.binanceJob choices svc w in
  fetches (trace (snd r)) = fetches (trace w) ++ repeat SrcBinance (ticksBeforeStop choices)
  /\ rates.bcv (rates.store (fst r)) = rates.bcv (rates.store svc)
  /\ rates.bcvTime (rates.store (fst r)) = rates.bcvTime (rates.store svc)
  /\ rates.bcvScraper (fst r) = rates.bcvScraper svc.
Proof.
  cbv zeta. unfold scheduler.binanceJob, bind.
  destruct (log_Println "Scheduler: Binance refresh job started (every 5 minutes)" w)
    as [u w1] eqn:E.
  pose proof (fetches_log w "Scheduler: Binance refresh job started (every 5 minutes)") as Hl.
  rewrite E in Hl. cbn [snd] in Hl.
  destruct (binanceJob_loop_run choices svc w1) as (Ht & L1 & L2 & L3 & _).
  rewrite Ht, Hl. auto.
Qed.

(** X10. [bcvDailyJob] calls the BCV scraper at most once for each time its
    timer fires before the stop case is taken, and never the Binance
    fetcher. The Binance value, its time and the Binance fetcher are left
    as they were. *)
Theorem bcvDailyJob_fetches_only_BCV
  (choices : list scheduler.Select) (svc : rates.Service B F) (w : World) :
  let r := scheduler.bcvDailyJob choices svc w in
  (exists n : nat,
     (n <= ticksBeforeStop choices)%nat
     /\ fetches (trace (snd r)) = fetches (trace w) ++ repeat SrcBCV n)
  /\ rates.binance (rates.store (fst r)) = rates.binance (rates.store svc)
  /\ rates.binTime (rates.store (fst r)) = rates.binTime (rates.store svc)
  /\ rates.binanceFetcher (fst r) = rates.binanceFetcher svc.
Proof.
  cbv zeta. unfold scheduler.bcvDailyJob, bind.
  destruct (log_Println "Scheduler: BCV daily job started" w) as [u w1] eqn:E.
  pose proof (fetches_log w "Scheduler: BCV daily job started") as Hl.
  rewrite E in Hl. cbn [snd] in Hl.
  destruct (bcvDailyJob_loop_run choices svc w1) as ((n & Hn & Ht) & L1 & L2 & L3 & _).
  rewrite Hl in Ht. repeat split; auto. exists n. auto.
Qed.

(** X11. While the fetcher of a source fails, whatever state it is in, the
    job of that source leaves the store as it found it, values and times of
    both sources, however long it runs. *)
Theorem job_keeps_store_while_source_fails
  (src : Source) (choices : list scheduler.Select) (svc : rates.Service B F) (w : World) :
  (forall s : rates.Service B F, snd (fetcherAnswer src s) <> None) ->
  rates.store (fst (jobOf src choices svc w)) = rates.store svc.
Proof.
  intros Hfail. destruct src; unfold jobOf, scheduler.bcvDailyJob, scheduler.binanceJob, bind.
  - destruct (log_Println "Scheduler: BCV daily job started" w) as [u w1].
    apply (bcvDailyJob_loop_run choices svc w1).
    intros sc.
    apply (Hfail {| rates.store := rates.store svc; rates.bcvScraper := sc;
                    rates.binanceFetcher := rates.binanceFetcher svc |}).
  - destruct (log_Println "Scheduler: Binance refresh job started (every 5 minutes)" w)
      as [u w1].
    apply (binanceJob_loop_run choices svc w1).
    intros sc.
    apply (Hfail {| rates.store := rates.store svc; rates.bcvScraper := rates.bcvScraper svc;
                    rates.binanceFetcher := sc |}).
Qed.

End RefreshProps.

Lemma successful_refresh_stores_rate_witness :
  let s := {| rates.store := storeOf 45.82 46.31;
              rates.bcvScraper := "bcv.org.ve unreachable"%string;
              rates.binanceFetcher := [46.5%float] |} in
  fetcherAnswer SrcBinance s = (46.5%float, None)
  /\ fst (fst (Refresh SrcBinance s world0)) = None
  /\ rates.binance (rates.store (snd (fst (Refresh SrcBinance s world0)))) = 46.5%float
  /\ rates.binTime (rates.store (snd (fst (Refresh SrcBinance s world0)))) = nthNow world0 0
  /\ rates.bcv (rates.store (snd (fst (Refresh SrcBinance s world0)))) = 45.82%float
  /\ rates.bcvTime (rates.store (snd (fst (Refresh SrcBinance s world0))))
     = rates.bcvTime (storeOf 45.82 46.31).
Proof.
  intros s. split; [reflexivity|].
  apply (@successful_refresh_stores_rate utcZone _ _ _ _ SrcBinance s world0 46.5%float).
  reflexivity.
Defined.

Lemma job_keeps_store_while_source_fails_witness :
  let svc := {| rates.store := storeOf 45.82 46.31;
                rates.bcvScraper := "bcv.org.ve unreachable"%string;
                rates.binanceFetcher := [46.5%float] |} in
  let choices := [scheduler.TimerFired; scheduler.TimerFired; scheduler.StopClosed] in
  (forall s : rates.Service Go.error (list float), snd (fetcherAnswer SrcBCV s) <> None)
  /\ rates.store (fst (@jobOf utcZone _ _ _ _ SrcBCV choices svc world0))
     = storeOf 45.82 46.31.
Proof.
  intros svc choices.
  assert (Hfail : forall s : rates.Service Go.error (list float),
             snd (fetcherAnswer SrcBCV s) <> None) by (intros s; cbn; discriminate).
  split; [exact Hfail|].
  exact (@job_keeps_store_while_source_fails utcZone _ _ _ _ SrcBCV choices svc world0 Hfail).
Defined.

(** A run of [binanceJob]: three ticks, the second of them failing, then
    the stop. *)
Example binanceJob_goes_on_after_failure :
  let svc := {| rates.store := rates.NewRateStore;
                rates.bcvScraper := "bcv.org.ve unreachable"%string;
                rates.binanceFetcher := [46.5%float] |} in
  let choices := [scheduler.TimerFired; scheduler.TimerFired; scheduler.TimerFired;
                  scheduler.StopClosed; scheduler.TimerFired] in
  let r := scheduler.binanceJob choices svc world0 in
  fetches (trace (snd r)) = [SrcBinance; SrcBinance; SrcBinance]
  /\ rates.binance (rates.store (fst r)) = 46.5%float.
Proof. vm_compute. split; reflexivity. Qed.

(** ** [nextBCVRunTime]: the first target, and how far it is *)

Section NextRunProps.
Import time.

Lemma onWeekend_day (t : Time) :
  scheduler.onWeekend t = true
  <-> ((localSec t / 86400 + 4) mod 7 = 6 \/ (localSec t / 86400 + 4) mod 7 = 0).
Proof.
  unfold scheduler.onWeekend, Time_Weekday, Weekday_of_Z.
  pose proof (Z.mod_pos_bound (localSec t / 86400 + 4) 7 ltac:(lia)) as Hb.
  destruct ((localSec t / 86400 + 4) mod 7) as [|p|p]; [cbn; intuition | | lia].
  do 3 (destruct p as [p|p|]; try (cbn; intuition (discriminate || lia)); try lia).
Qed.

Lemma onWeekend_localSec (t u : Time) :
  localSec t = localSec u -> scheduler.onWeekend t = scheduler.onWeekend u.
Proof.
  unfold scheduler.onWeekend, Time_Weekday. now intros ->.
Qed.

(** The days the weekend loop passes over are Saturdays and Sundays. *)
Lemma skipWeekend_skipped (t : Time) :
  nsec t = 0 -> mono t = None ->
  exists k : Z,
    0 <= k
    /\ scheduler.skipWeekend t
       = {| sec := sec t + 86400 * k; nsec := 0; mono := None; loc := loc t |}
    /\ forall j : Z, 0 <= j < k ->
         scheduler.onWeekend
           {| sec := sec t + 86400 * j; nsec := 0; mono := None; loc := loc t |} = true.
Proof.
  funelim (scheduler.skipWeekend t); intros Hn Hm.
  - rewrite (Time_Add_day next Hn Hm) in *.
    destruct (H eq_refl eq_refl) as (k & Hk & Heq & Hall).
    exists (k + 1). cbn [sec loc] in Heq, Hall.
    split; [lia|]. split; [rewrite Heq; f_equal; lia|].
    intros j Hj. destruct (Z.eq_dec j 0) as [->|Hj0].
    + rewrite <- e. apply onWeekend_localSec. unfold localSec. cbn [sec loc]. lia.
    + rewrite <- (Hall (j - 1)) by lia. apply onWeekend_localSec. unfold localSec.
      cbn [sec loc]. lia.
  - exists 0. split; [lia|]. split; [|intros j Hj; lia].
    destruct next as [s n m l]; cbn in *; subst. f_equal. lia.
Qed.

(** No three days in a row are Saturdays or Sundays. *)
Lemma weekend_two_days (s : Z) (l : Location) (k : Z) :
  (forall j : Z, 0 <= j < k ->
     scheduler.onWeekend {| sec := s + 86400 * j; nsec := 0; mono := None; loc := l |} = true) ->
  k <= 2.
Proof.
  intros Hall. destruct (Z_le_gt_dec k 2) as [|Hk]; [assumption|exfalso].
  pose proof (proj1 (onWeekend_day _) (Hall 0 ltac:(lia))) as H0.
  pose proof (proj1 (onWeekend_day _) (Hall 1 ltac:(lia))) as H1.
  pose proof (proj1 (onWeekend_day _) (Hall 2 ltac:(lia))) as H2.
  unfold localSec in H0, H1, H2. cbn [sec loc] in H0, H1, H2.
  set (x := s + offset l) in *.
  replace (s + 86400 * 0 + offset l) with x in H0 by (subst x; lia).
  replace ((s + 86400 * 1 + offset l) / 86400) with (x / 86400 + 1) in H1
    by (subst x; Z.to_euclidean_division_equations; lia).
  replace ((s + 86400 * 2 + offset l) / 86400) with (x / 86400 + 2) in H2
    by (subst x; Z.to_euclidean_division_equations; lia).
  Z.to_euclidean_division_equations. lia.
Qed.

(** [nextBCVRunTimeAt], with the days it passes over. *)
Lemma nextBCVRunTimeAt_skipped (reading : Time) :
  let now := Time_In reading scheduler.VET in
  let target := wallTime (todayTarget (sec reading)) in
  let first := todayTarget (sec reading) + (if Time_After now target then 86400 else 0) in
  exists k : Z,
    0 <= k <= 2
    /\ scheduler.nextBCVRunTimeAt reading = wallTime (first + 86400 * k)
    /\ forall j : Z, 0 <= j < k -> scheduler.onWeekend (wallTime (first + 86400 * j)) = true.
Proof.
  intros now target first.
  unfold scheduler.nextBCVRunTimeAt. cbv zeta.
  rewrite (target_of_today reading). fold now. fold (wallTime (todayTarget (sec reading))).
  fold target.
  set (next1 := if Time_After now target then Time_Add target (24 * Hour) else target).
  assert (H1 : next1 = wallTime first).
  { subst next1 first. destruct (Time_After now target).
    - subst target. unfold wallTime. rewrite Time_Add_day by reflexivity. reflexivity.
    - subst target. unfold wallTime. f_equal. cbn. lia. }
  rewrite H1.
  destruct (@skipWeekend_skipped (wallTime first) eq_refl eq_refl) as (k & Hk & Heq & Hall).
  exists k. split; [|split; [exact Heq | exact Hall]].
  split; [assumption|]. exact (weekend_two_days _ _ Hall).
Qed.

(** X12. The next run is the first weekday 11:30:00 in Caracas that is not
    before the reading: no instant that is 11:30:00 there on a Monday to
    Friday, and that the reading is not after, is before the next run. *)
Theorem nextBCVRunTime_is_first_target (reading : Time) (s : Z) :
  atTargetInstant (wallTime s) = true ->
  Time_After reading (wallTime s) = false ->
  Time_After (scheduler.nextBCVRunTimeAt reading) (wallTime s) = false.
Proof.
  intros Ht Ha.
  destruct (nextBCVRunTimeAt_skipped reading) as (k & Hk & Heq & Hall).
  cbv zeta in Heq, Hall. rewrite Heq.
  set (now := Time_In reading scheduler.VET) in *.
  set (target := wallTime (todayTarget (sec reading))) in *.
  assert (Hafter : Time_After now target
                   = (todayTarget (sec reading) <? sec reading)
                     || ((sec reading =? todayTarget (sec reading)) && (0 <? nsec reading)))
    by reflexivity.
  assert (Ha' : Time_After reading (wallTime s)
                = (s <? sec reading) || ((sec reading =? s) && (0 <? nsec reading))).
  { unfold Time_After, wallTime. cbn [mono sec nsec]. destruct (mono reading); reflexivity. }
  rewrite Ha' in Ha. apply orb_false_iff in Ha. destruct Ha as [Ha1 Ha2].
  apply Z.ltb_ge in Ha1.
  unfold atTargetInstant in Ht.
  apply andb_true_iff in Ht. destruct Ht as [Ht Hwd].
  apply andb_true_iff in Ht. destruct Ht as [Hmod _].
  apply Z.eqb_eq in Hmod. apply negb_true_iff in Hwd.
  unfold localSec in Hmod. cbn [sec loc Time_In wallTime offset scheduler.VET FixedZone] in Hmod.
  change (-4 * 60 * 60) with (-14400) in Hmod.
  set (T := todayTarget (sec reading)) in *.
  set (first := T + (if Time_After now target then 86400 else 0)) in *.
  (* [s] is a whole number of days after [first] *)
  assert (Hs : exists j : Z, 0 <= j /\ s = first + 86400 * j).
  { exists ((s - first) / 86400).
    assert (HT : T = (sec reading - 14400) / 86400 * 86400 + 41400 + 14400) by reflexivity.
    assert (Hf : 0 <= s - first /\ (s - first) mod 86400 = 0).
    { subst first. rewrite Hafter.
      destruct (Z.ltb_spec T (sec reading)) as [L|L]; cbn [orb].
      - clearbody T. clear - HT Hmod Ha1 L. Z.to_euclidean_division_equations. lia.
      - destruct (Z.eqb_spec (sec reading) T) as [E|E]; cbn [andb].
        + destruct (Z.ltb_spec 0 (nsec reading)) as [N|N].
          * destruct (Z.eqb_spec (sec reading) s) as [E'|E']; [discriminate Ha2|].
            clearbody T. clear - HT Hmod Ha1 L E E'. Z.to_euclidean_division_equations. lia.
          * clearbody T. clear - HT Hmod Ha1 L. Z.to_euclidean_division_equations. lia.
        + clearbody T. clear - HT Hmod Ha1 L. Z.to_euclidean_division_equations. lia. }
    destruct Hf as [Hf1 Hf2]. clearbody first.
    clear - Hf1 Hf2. Z.to_euclidean_division_equations. lia. }
  destruct Hs as (j & Hj & ->).
  assert (Hkj : k <= j).
  { destruct (Z_le_gt_dec k j) as [|G]; [assumption|exfalso].
    specialize (Hall j ltac:(lia)).
    rewrite (onWeekend_localSec (Time_In (wallTime (first + 86400 * j)) scheduler.VET)
                                (wallTime (first + 86400 * j)) eq_refl) in Hwd.
    congruence. }
  unfold Time_After, wallTime. cbn [mono sec nsec].
  apply orb_false_iff. split.
  - apply Z.ltb_ge. lia.
  - apply andb_false_iff. right. reflexivity.
Qed.

(** From a reading with its nanoseconds in range, the next run is less
    than [72 * time.Hour] away of that reading. *)
Theorem nextBCVRunTime_within_72_hours (reading : Time) :
  valid reading ->
  Time_Sub (scheduler.nextBCVRunTimeAt reading) reading < 72 * Hour.
Proof.
  intros Hv. unfold valid in Hv.
  destruct (nextBCVRunTimeAt_skipped reading) as (k & Hk & Heq & _).
  cbv zeta in Heq. rewrite Heq.
  set (now := Time_In reading scheduler.VET) in *.
  set (target := wallTime (todayTarget (sec reading))) in *.
  assert (Hafter : Time_After now target
                   = (todayTarget (sec reading) <? sec reading)
                     || ((sec reading =? todayTarget (sec reading)) && (0 <? nsec reading)))
    by reflexivity.
  assert (Hday : todayTarget (sec reading) - 41400 <= sec reading).
  { unfold todayTarget. Z.to_euclidean_division_equations. lia. }
  unfold Time_Sub, wallTime. cbn [mono sec nsec].
  change (72 * Hour) with 259200000000000.
  change (10 ^ 9) with 1000000000 in *.
  assert (Hd : (todayTarget (sec reading) + (if Time_After now target then 86400 else 0)
                + 86400 * k - sec reading) * 1000000000 + (0 - nsec reading)
               < 259200000000000).
  { rewrite Hafter.
    destruct (Z.ltb_spec (todayTarget (sec reading)) (sec reading)) as [L|L]; cbn [orb]; [lia|].
    destruct (Z.eqb_spec (sec reading) (todayTarget (sec reading))) as [E|E]; cbn [andb]; [|lia].
    destruct (Z.ltb_spec 0 (nsec reading)); lia. }
  unfold maxDuration, minDuration. lia.
Qed.

(** The same, as a bound on the wall clock of the next run. *)
Lemma nextBCVRunTimeAt_within_3_days (reading : Time) :
  valid reading ->
  exists n : Z,
    scheduler.nextBCVRunTimeAt reading = wallTime n
    /\ (n - sec reading) * 1000000000 - nsec reading < 259200000000000.
Proof.
  intros Hv. unfold valid in Hv. change (10 ^ 9) with 1000000000 in Hv.
  destruct (nextBCVRunTimeAt_skipped reading) as (k & Hk & Heq & _).
  cbv zeta in Heq. eexists. split; [exact Heq|].
  set (now := Time_In reading scheduler.VET) in *.
  set (target := wallTime (todayTarget (sec reading))) in *.
  assert (Hafter : Time_After now target
                   = (todayTarget (sec reading) <? sec reading)
                     || ((sec reading =? todayTarget (sec reading)) && (0 <? nsec reading)))
    by reflexivity.
  assert (Hday : todayTarget (sec reading) - 41400 <= sec reading).
  { unfold todayTarget. Z.to_euclidean_division_equations. lia. }
  rewrite Hafter.
  destruct (Z.ltb_spec (todayTarget (sec reading)) (sec reading)) as [L|L]; cbn [orb]; [lia|].
  destruct (Z.eqb_spec (sec reading) (todayTarget (sec reading))) as [E|E]; cbn [andb]; [|lia].
  destruct (Z.ltb_spec 0 (nsec reading)); lia.
Qed.

End NextRunProps.

Lemma nextBCVRunTime_is_first_target_witness :
  let reading := instant (1704123000 + 4 * 86400 + 1800) in   (* Friday 12:00 *)
  let monday := 1704123000 + 7 * 86400 in                     (* Monday 11:30 *)
  atTargetInstant (wallTime monday) = true
  /\ time.Time_After reading (wallTime monday) = false
  /\ time.Time_After (scheduler.nextBCVRunTimeAt reading) (wallTime monday) = false.
Proof.
  intros reading monday.
  assert (Ht : atTargetInstant (wallTime monday) = true) by (vm_compute; reflexivity).
  assert (Ha : time.Time_After reading (wallTime monday) = false) by (vm_compute; reflexivity).
  split; [exact Ht|]. split; [exact Ha|].
  exact (@nextBCVRunTime_is_first_target reading monday Ht Ha).
Defined.

Lemma nextBCVRunTime_within_72_hours_witness :
  let reading := {| time.sec := 1704123000 + 4 * 86400; time.nsec := 1;
                    time.mono := Some 0; time.loc := time.UTC |} in
  time.valid reading
  /\ time.Time_Sub (scheduler.nextBCVRunTimeAt reading) reading = 72 * time.Hour - 1
  /\ time.Time_Sub (scheduler.nextBCVRunTimeAt reading) reading < 72 * time.Hour.
Proof.
  intros reading.
  assert (Hv : time.valid reading) by (unfold time.valid; simpl; lia).
  split; [exact Hv|]. split; [vm_compute; reflexivity|].
  exact (@nextBCVRunTime_within_72_hours reading Hv).
Defined.

(** ** The daily BCV job and the zone of the process *)

Unset Implicit Arguments.

Section WakeProps.
Context `{time.LocalZone}.
Context {B F : Type} `{rates.Scraper B} `{rates.Scraper F}.

(** The scraper calls of a turn of the loop whose timer fires. *)
Lemma bcvDailyJob_iteration_wake (svc : rates.Service B F) (w : World) :
  fetches (trace (snd (scheduler.bcvDailyJob_iteration scheduler.TimerFired svc w)))
  = fetches (trace w) ++ (if scheduler.onWeekend (nthNow w 2) then [] else [SrcBCV]).
Proof.
  unfold scheduler.bcvDailyJob_iteration, scheduler.nextBCVRunTime, time_Until,
    scheduler.bcvDailyJob_wake, scheduler.isWeekday, scheduler.onWeekend, nthNow,
    rates.FetchBCV, rates.call_Fetch, rates.SetBCV,
    log_Println, log_Printf, time_Now, bind, emit, ret.
  cbn -[fetches scheduler.nextBCVRunTimeAt time.Time_Sub time.Time_Weekday].
  replace (ticks w + 2)%nat with (S (S (ticks w))) by lia.
  destruct (time.Time_Weekday _);
    cbn -[fetches scheduler.nextBCVRunTimeAt time.Time_Sub];
    try (destruct (rates.Fetch (rates.bcvScraper svc)) as [[rate err] sc];
         destruct err; cbn -[fetches scheduler.nextBCVRunTimeAt time.Time_Sub]);
    rewrite <- ?app_assoc, !fetches_app; cbn; rewrite ?app_nil_r; reflexivity.
Qed.

Lemma onWeekend_same_day (t u : time.Time) :
  time.localSec t / 86400 = time.localSec u / 86400 ->
  scheduler.onWeekend t = scheduler.onWeekend u.
Proof.
  intros Hday. unfold scheduler.onWeekend, time.Time_Weekday. rewrite Hday. reflexivity.
Qed.

Lemma nextBCVRunTimeAt_weekday (reading : time.Time) :
  scheduler.onWeekend (scheduler.nextBCVRunTimeAt reading) = false.
Proof.
  apply skipWeekend_weekday.
Qed.

(** X14. A turn of the loop of [bcvDailyJob] computes the next run from its
    first reading of the clock and, when the timer fires, tests the weekday
    of its third reading in the zone of the process. When that reading is on
    the calendar day, in the zone of the process, that the next run has in
    Caracas, the BCV scraper is called. *)
Theorem bcvDailyJob_scrapes_on_target_day (svc : rates.Service B F) (w : World) :
  let next := scheduler.nextBCVRunTimeAt (nthNow w 0) in
  let wake := nthNow w 2 in
  time.localSec wake / 86400 = time.localSec next / 86400 ->
  fetches (trace (snd (scheduler.bcvDailyJob_iteration scheduler.TimerFired svc w)))
  = fetches (trace w) ++ [SrcBCV].
Proof.
  cbv zeta. intros Hday. rewrite bcvDailyJob_iteration_wake.
  rewrite (onWeekend_same_day _ _ Hday), nextBCVRunTimeAt_weekday. reflexivity.
Qed.

(** The first events of a turn of the loop: the next run and the wait,
    logged. *)
Lemma bcvDailyJob_iteration_logs_wait
  (choice : scheduler.Select) (svc : rates.Service B F) (w : World) :
  exists rest : list Event,
    trace (snd (scheduler.bcvDailyJob_iteration choice svc w))
    = trace w
      ++ EvLog "Scheduler: Next BCV scrape scheduled for %s (in %s)"
               [ArgTime (scheduler.nextBCVRunTimeAt (nthNow w 0));
                ArgDuration (time.Time_Sub (scheduler.nextBCVRunTimeAt (nthNow w 0))
                                           (nthNow w 1))]
         :: rest.
Proof.
  unfold scheduler.bcvDailyJob_iteration, scheduler.nextBCVRunTime, time_Until,
    scheduler.bcvDailyJob_wake, scheduler.isWeekday, nthNow,
    rates.FetchBCV, rates.call_Fetch, rates.SetBCV,
    log_Println, log_Printf, time_Now, bind, emit, ret.
  rewrite Nat.add_0_r. replace (ticks w + 1)%nat with (S (ticks w)) by lia.
  destruct choice; cbn -[scheduler.nextBCVRunTimeAt time.Time_Sub time.Time_Weekday].
  - rewrite <- app_assoc. eexists. reflexivity.
  - destruct (time.Time_Weekday _);
      cbn -[scheduler.nextBCVRunTimeAt time.Time_Sub];
      try (destruct (rates.Fetch (rates.bcvScraper svc)) as [[rate err] sc];
           destruct err; cbn -[scheduler.nextBCVRunTimeAt time.Time_Sub]);
      rewrite <- ?app_assoc; cbn [app]; eexists; reflexivity.
Qed.


End WakeProps.

Set Implicit Arguments.


(** Without the condition on the wall clock the wait is not bounded so: when
    the clock is set back between the two readings, from Friday 2024-01-05
    at 11:30:01 in Caracas to 11:00:00, the wait logged is 72 hours and 30
    minutes. *)
Example bcvDailyJob_wait_after_clock_set_back :
  let w := {| clock := fun n =>
                match n with
                | 0%nat => {| rd_sec := 1704123000 + 4 * 86400 + 1; rd_nsec := 0;
                              rd_mono := 0 |}
                | _ => {| rd_sec := 1704123000 + 4 * 86400 - 1800; rd_nsec := 0;
                          rd_mono := 1000 |}
                end;
              ticks := 0; trace := [] |} in
  let svc := {| rates.store := rates.NewRateStore;
                rates.bcvScraper := [45.82%float];
                rates.binanceFetcher := [46.31%float] |} in
  wallClockLe (@nthNow utcZone w 0) (@nthNow utcZone w 1) = false
  /\ trace (snd (@scheduler.bcvDailyJob_iteration utcZone _ _ _
                   scheduler.StopClosed svc w))
     = [EvLog "Scheduler: Next BCV scrape scheduled for %s (in %s)"
              [ArgTime (wallTime (1704123000 + 7 * 86400));
               ArgDuration (72 * time.Hour + 30 * time.Minute)];
        EvLog "Scheduler: BCV job stopped" []].
Proof. vm_compute. split; reflexivity. Qed.

Lemma bcvDailyJob_scrapes_on_target_day_witness :
  let svc := {| rates.store := rates.NewRateStore;
                rates.bcvScraper := [45.82%float];
                rates.binanceFetcher := [46.31%float] |} in
  time.localSec (@nthNow utcZone world0 2) / 86400
  = time.localSec (scheduler.nextBCVRunTimeAt (@nthNow utcZone world0 0)) / 86400
  /\ fetches (trace (snd (@scheduler.bcvDailyJob_iteration utcZone _ _ _
                            scheduler.TimerFired svc world0)))
     = [SrcBCV].
Proof.
  intros svc.
  assert (Hday : time.localSec (@nthNow utcZone world0 2) / 86400
                 = time.localSec (scheduler.nextBCVRunTimeAt (@nthNow utcZone world0 0)) / 86400)
    by (vm_compute; reflexivity).
  split; [exact Hday|].
  exact (@bcvDailyJob_scrapes_on_target_day utcZone _ _ _ svc world0 Hday).
Defined.

(** In a process nine hours east of Greenwich the run of Friday 2024-01-05,
    11:30 in Caracas, wakes on Saturday 00:30 there: the job takes it for a
    weekend and does not scrape. *)
Example bcvDailyJob_skips_Friday_east_of_Caracas :
  let w := {| clock := fun n => {| rd_sec := 1704123000 + 4 * 86400 - 1 + Z.of_nat n;
                                   rd_nsec := 0; rd_mono := Z.of_nat n |};
              ticks := 0; trace := [] |} in
  let svc := {| rates.store := rates.NewRateStore;
                rates.bcvScraper := [45.82%float];
                rates.binanceFetcher := [46.31%float] |} in
  let next := scheduler.nextBCVRunTimeAt (@nthNow tokyoZone w 0) in
  let r := @scheduler.bcvDailyJob_iteration tokyoZone _ _ _ scheduler.TimerFired svc w in
  (time.Time_Weekday next, time.Time_Hour next, time.Time_Minute next)
  = (time.Friday, 11, 30)
  /\ time.Time_Weekday (@nthNow tokyoZone w 2) = time.Saturday
  /\ fetches (trace (snd r)) = [].
Proof. vm_compute. repeat split; reflexivity. Qed.
